(** * drone-s3-cache: the plugin entry point [main.go]

    A shallow embedding of [main.go] (flag declarations, [run], [s3Storage],
    [isMultipleModes]) together with the cache operations that [run] hands
    over to ([Plugin.Exec], which lives outside [main.go]). *)

From Stdlib Require Import ZArith Ascii String List Bool Lia.
From stdpp Require Import base option list gmap strings.

Local Open Scope string_scope.
Local Open Scope Z_scope.

(** ** Go values used by [main.go] *)

(** A Go [error].  [errors.New] and [fmt.Errorf] build an [errorString];
    [strconv] reports a [NumError] naming the function, the offending text
    and the cause; [Foreign] stands for an error of a collaborator. *)
Inductive NumCause := ErrSyntax | ErrRange.

Inductive error :=
| errorString (msg : string)
| NumError (Func Num : string) (Err : NumCause)
| Foreign (msg : string).

Definition error_eqb (e1 e2 : error) : bool :=
  match e1, e2 with
  | errorString a, errorString b => String.eqb a b
  | NumError f n c, NumError f' n' c' =>
      String.eqb f f' && String.eqb n n' &&
      match c, c' with
      | ErrSyntax, ErrSyntax | ErrRange, ErrRange => true
      | _, _ => false
      end
  | Foreign a, Foreign b => String.eqb a b
  | _, _ => false
  end.

(** Go's [len] on a string, as an integer. *)
Definition len (s : string) : Z := Z.of_nat (String.length s).

(** [s[n:]] for [n <= len s]. *)
Fixpoint slice_from (n : nat) (s : string) : string :=
  match n, s with
  | O, _ => s
  | S n', String _ s' => slice_from n' s'
  | S _, EmptyString => EmptyString
  end.

Module strings.
(** [strings.HasPrefix(s, prefix)]. *)
Definition HasPrefix (s prefix : string) : bool := String.prefix prefix s.
End strings.

Module strconv.
(** The value of a decimal digit byte, if it is one. *)
Definition digit (ch : ascii) : option Z :=
  let n := Z.of_N (N_of_ascii ch) in
  if (48 <=? n) && (n <=? 57) then Some (n - 48) else None.

(** [n = n*10 + int(ch)] over the bytes of [s]; [None] on a byte that
    is no digit. *)
Fixpoint digits (n : Z) (s : string) : option Z :=
  match s with
  | EmptyString => Some n
  | String ch s' =>
      match digit ch with
      | Some d => digits (n * 10 + d) s'
      | None => None
      end
  end.

Definition maxInt : Z := 2 ^ 63 - 1.
Definition minInt : Z := - 2 ^ 63.

(** [strconv.Atoi] on a 64-bit [int]: an optional sign, then at least one
    decimal digit and nothing else; a value outside the [int] range is a
    range error. *)
Definition Atoi (s : string) : error + Z :=
  let syntaxError := inl (NumError "Atoi" s ErrSyntax) in
  let rangeError := inl (NumError "Atoi" s ErrRange) in
  let '(neg, body) :=
    match s with
    | String "-" s' => (true, s')
    | String "+" s' => (false, s')
    | _ => (false, s)
    end in
  match body with
  | EmptyString => syntaxError
  | _ =>
      match digits 0 body with
      | None => syntaxError
      | Some n =>
          let v := if neg then - n else n in
          if (minInt <=? v) && (v <=? maxInt) then inr v else rangeError
      end
  end.

(** [strconv.ParseBool]. *)
Definition ParseBool (s : string) : option bool :=
  if existsb (String.eqb s) ["1"; "t"; "T"; "TRUE"; "true"; "True"] then Some true
  else if existsb (String.eqb s) ["0"; "f"; "F"; "FALSE"; "false"; "False"] then Some false
  else None.
End strconv.

(** ** The command-line library: flags and contexts *)

Module cli.
(** The value a flag holds: [StringFlag], [BoolFlag], [StringSliceFlag]. *)
Inductive FlagValue :=
| VString (s : string)
| VBool (b : bool)
| VStringSlice (l : list string).

(** A declared flag; the kind is the constructor of its default value. *)
Record Flag := { Name : string; Usage : string; EnvVar : string; Value : FlagValue }.

Definition StringFlag (name usage envVar value : string) : Flag :=
  {| Name := name; Usage := usage; EnvVar := envVar; Value := VString value |}.
Definition BoolFlag (name usage envVar : string) : Flag :=
  {| Name := name; Usage := usage; EnvVar := envVar; Value := VBool false |}.
Definition StringSliceFlag (name usage envVar : string) : Flag :=
  {| Name := name; Usage := usage; EnvVar := envVar; Value := VStringSlice [] |}.

Definition same_kind (v w : FlagValue) : bool :=
  match v, w with
  | VString _, VString _ | VBool _, VBool _ | VStringSlice _, VStringSlice _ => true
  | _, _ => false
  end.

(** The context handed to the action: the flag set of the application.
    The action of the root application has no parent context. *)
Record Context := { flagSet : gmap string FlagValue }.

(** What the library stores for the declared flags, given the option
    values supplied from outside (by flag name, through the command line
    or the flag's environment variables).  Only declared flags enter the
    flag set: an environment variable that no declared flag is bound to is
    never read, and an undeclared option on the command line stops
    [app.Run] before the action.  A flag that is not supplied, or is
    supplied with a value of another kind, keeps its default. *)
Definition apply (supplied : gmap string FlagValue) (f : Flag) : FlagValue :=
  match supplied !! Name f with
  | Some v => if same_kind v (Value f) then v else Value f
  | None => Value f
  end.

Fixpoint parse (flags : list Flag) (supplied : gmap string FlagValue)
  : gmap string FlagValue :=
  match flags with
  | [] => ∅
  | f :: rest => <[Name f := apply supplied f]> (parse rest supplied)
  end.

Definition NewContext (flags : list Flag) (supplied : gmap string FlagValue) : Context :=
  {| flagSet := parse flags supplied |}.

(** [flag.Value.String()]. *)
Definition Value_String (v : FlagValue) : string :=
  match v with
  | VString s => s
  | VBool true => "true"
  | VBool false => "false"
  | VStringSlice l => "[" +:+ String.concat " " l +:+ "]"
  end.

(** [c.GlobalString(name)]: the same lookup, in the nearest ancestor
    context that declares the flag; for a root context that is the
    context itself. *)
Definition GlobalString (c : Context) (name : string) : string :=
  match flagSet c !! name with
  | Some v => Value_String v
  | None => ""
  end.

(** [c.Bool(name)]: false when absent or when the text is no boolean. *)
Definition Bool (c : Context) (name : string) : bool :=
  match flagSet c !! name with
  | Some v => default false (strconv.ParseBool (Value_String v))
  | None => false
  end.

(** [c.StringSlice(name)]: nil when absent.  (The library asserts that
    the flag is a string slice; the flags of [main] declare it so.) *)
Definition StringSlice (c : Context) (name : string) : list string :=
  match flagSet c !! name with
  | Some (VStringSlice l) => l
  | _ => []
  end.

(** [c.String(name)]: the zero value when the flag set has no such flag. *)
Definition String (c : Context) (name : string) : string :=
  match flagSet c !! name with
  | Some v => Value_String v
  | None => ""
  end.
End cli.

(** ** The storage package used by [main.go] *)

Module s3.
(** The options literal that [s3Storage] passes to [s3.New]. *)
Record Options := { Endpoint : string; Access : string; Secret : string; UseSSL : bool }.
End s3.

(** ** Effects of [run] *)

(** What [run] does besides computing: it sets the log level, writes log
    lines and calls the storage constructor. *)
Inductive Event :=
| SetLevelDebug
| LogInfo (msg : string)
| S3New (o : s3.Options).

(** A computation that logs its events and either fails with a Go error
    (an early [return err]) or yields a value. *)
Definition Run (A : Type) : Type := (list Event * (error + A))%type.

Definition trace {A} (m : Run A) : list Event := fst m.
Definition result {A} (m : Run A) : error + A := snd m.

Definition ret {A} (a : A) : Run A := ([], inr a).
Definition fail {A} (e : error) : Run A := ([], inl e).
Definition emit (ev : Event) : Run unit := ([ev], inr tt).
Definition bind {A B} (m : Run A) (k : A -> Run B) : Run B :=
  match m with
  | (t, inl e) => (t, inl e)
  | (t, inr a) => let '(t', r) := k a in ((t ++ t')%list, r)
  end.

Notation "'do' x <- m ; k" := (bind m (fun x => k))
  (at level 10, x name, m at level 100, k at level 200).
Notation "'do' ' p <- m ; k" := (bind m (fun x => let 'p := x in k))
  (at level 10, p pattern, m at level 100, k at level 200).
Notation "m ;; k" := (bind m (fun _ => k))
  (at level 100, k at level 200, right associativity).

(** The event is a call of the storage constructor. *)
Definition is_S3New (ev : Event) : bool :=
  match ev with S3New _ => true | _ => false end.

(** No storage client was constructed along the trace. *)
Definition no_storage (t : list Event) : bool := forallb (fun ev => negb (is_S3New ev)) t.

(** ** [main.go] *)

(** The flags that [main] declares, in order. *)
Definition app_Flags : list cli.Flag :=
  [ cli.StringFlag "filename" "Filename for the cache" "PLUGIN_FILENAME" "";
    cli.StringFlag "path" "path" "PLUGIN_PATH" "";
    cli.StringFlag "fallback_path" "fallback_path" "PLUGIN_FALLBACK_PATH" "";
    cli.StringSliceFlag "mount" "cache directories" "PLUGIN_MOUNT";
    cli.BoolFlag "rebuild" "rebuild the cache directories" "PLUGIN_REBUILD";
    cli.BoolFlag "restore" "restore the cache directories" "PLUGIN_RESTORE";
    cli.BoolFlag "flush" "flush the cache" "PLUGIN_FLUSH";
    cli.StringFlag "flush_age" "flush cache files older then # days" "PLUGIN_FLUSH_AGE" "30";
    cli.BoolFlag "debug" "debug plugin output" "PLUGIN_DEBUG";
    cli.StringFlag "repo.owner" "repository owner" "PLUGIN_BUCKET,DRONE_REPO_OWNER" "";
    cli.StringFlag "repo.name" "repository name" "DRONE_REPO_NAME" "";
    cli.StringFlag "commit.branch" "git commit branch" "DRONE_COMMIT_BRANCH" "master";
    cli.StringFlag "server" "s3 server" "PLUGIN_SERVER,CACHE_S3_SERVER" "";
    cli.StringFlag "access-key" "s3 access key" "PLUGIN_ACCESS_KEY,CACHE_S3_ACCESS_KEY" "";
    cli.StringFlag "secret-key" "s3 secret key" "PLUGIN_SECRET_KEY,CACHE_S3_SECRET_KEY" "" ].

(** The context that [app.Run] hands to [run] for the supplied options. *)
Definition app_Context (supplied : gmap string cli.FlagValue) : cli.Context :=
  cli.NewContext app_Flags supplied.

(** Modelled from the spec: the mode constants [RebuildMode], [RestoreMode]
    and [FlushMode], declared with [Plugin] outside [main.go]; the spec has
    exactly the three modes rebuild, restore and flush. *)
Definition RebuildMode : string := "rebuild".
Definition RestoreMode : string := "restore".
Definition FlushMode : string := "flush".

(** [isMultipleModes]: the loop over the variadic arguments, with the
    local [b] as accumulator. *)
Fixpoint isMultipleModes_from (b : bool) (bools : list bool) : bool :=
  match bools with
  | [] => false
  | v :: rest =>
      if b && Bool.eqb b v then true
      else isMultipleModes_from (if v then true else b) rest
  end.

Definition isMultipleModes (bools : list bool) : bool := isMultipleModes_from false bools.

(** [fmt.Sprintf] at the three formats of [run]. *)
Definition Sprintf3 (a b c : string) : string := "/" +:+ a +:+ "/" +:+ b +:+ "/" +:+ c +:+ "/".
Definition Sprintf_master (a b : string) : string := "/" +:+ a +:+ "/" +:+ b +:+ "/master/".
Definition Sprintf2 (a b : string) : string := "/" +:+ a +:+ "/" +:+ b +:+ "/".

Section Main.
(** The storage handle and its constructor [s3.New] are declared outside
    [main.go]. *)
Context {Storage : Type}.
Variable s3_New : s3.Options -> error + Storage.

(** The [Plugin] literal built by [run]. *)
Record Plugin := {
  Filename : string;
  Path : string;
  FallbackPath : string;
  FlushPath : string;
  Mode : string;
  FlushAge : Z;
  Mount : list string;
  Storage_ : Storage
}.

(** [s3Storage]. *)
Definition s3Storage (c : cli.Context) : Run Storage :=
  let server := cli.String c "server" in
  do '(endpoint, useSSL) <-
    (if 0 <? len server then
       let useSSL := strings.HasPrefix server "https://" in
       if negb useSSL then
         if negb (strings.HasPrefix server "http://") then
           fail (errorString ("Invalid server " +:+ server +:+ ". Needs to be a HTTP URI"))
         else ret (slice_from 7 server, useSSL)
       else ret (slice_from 8 server, useSSL)
     else ret ("s3.amazonaws.com", true));
  let access := cli.String c "access-key" in
  let secret := cli.String c "secret-key" in
  if (len access =? 0) || (len secret =? 0) then
    fail (errorString "No access credentials provided")
  else
    let o := {| s3.Endpoint := endpoint; s3.Access := access;
                s3.Secret := secret; s3.UseSSL := useSSL |} in
    emit (S3New o);;
    (([], s3_New o) : Run Storage).

(** [run], lines 119-122: the logging level. *)
Definition run_debug (c : cli.Context) : Run unit :=
  if cli.Bool c "debug" then emit SetLevelDebug else ret tt.

(** [run], lines 124-151: the mode and the mounts. *)
Definition run_mode (c : cli.Context) : Run (string * list string) :=
  let rebuild := cli.Bool c "rebuild" in
  let restore := cli.Bool c "restore" in
  let flush := cli.Bool c "flush" in
  (if isMultipleModes [rebuild; restore; flush] then
     fail (errorString "Must use a single mode: rebuild, restore or flush")
   else if negb rebuild && negb restore && negb flush then
     fail (errorString "No action specified")
   else ret tt);;
  if rebuild then
    let mount := cli.StringSlice c "mount" in
    if Z.of_nat (length mount) =? 0 then fail (errorString "No mounts specified")
    else ret (RebuildMode, mount)
  else if flush then ret (FlushMode, [])
  else ret (RestoreMode, []).

(** [run], lines 153-166: the path. *)
Definition run_path (c : cli.Context) : Run string :=
  let path := cli.GlobalString c "path" in
  if len path =? 0 then
    emit (LogInfo "No path specified. Creating default");;
    ret (Sprintf3 (cli.String c "repo.owner") (cli.String c "repo.name")
           (cli.String c "commit.branch"))
  else ret path.

(** [run], lines 168-180: the fallback path. *)
Definition run_fallbackPath (c : cli.Context) : Run string :=
  let fallbackPath := cli.GlobalString c "fallback_path" in
  if len fallbackPath =? 0 then
    emit (LogInfo "No fallback_path specified. Creating default");;
    ret (Sprintf_master (cli.String c "repo.owner") (cli.String c "repo.name"))
  else ret fallbackPath.

(** [run], lines 182-194: the flush path. *)
Definition run_flushPath (c : cli.Context) : Run string :=
  let flushPath := cli.GlobalString c "flush_path" in
  if len flushPath =? 0 then
    emit (LogInfo "No flush_path specified. Creating default");;
    ret (Sprintf2 (cli.String c "repo.owner") (cli.String c "repo.name"))
  else ret flushPath.

(** [run], lines 196-203: the file name. *)
Definition run_filename (c : cli.Context) : Run string :=
  let filename := cli.GlobalString c "filename" in
  if len filename =? 0 then
    emit (LogInfo "No filename specified. Creating default");;
    ret "archive.tar"
  else ret filename.

(** [run]: everything up to the final [p.Exec()]; the value is the
    plugin on which [Exec] is then called. *)
Definition run (c : cli.Context) : Run Plugin :=
  run_debug c;;
  do '(mode, mount) <- run_mode c;
  do path <- run_path c;
  do fallbackPath <- run_fallbackPath c;
  do flushPath <- run_flushPath c;
  do filename <- run_filename c;
  do s <- s3Storage c;
  do flushAge <- (([], strconv.Atoi (cli.String c "flush_age")) : Run Z);
  ret {| Filename := filename; Path := path; FallbackPath := fallbackPath;
         FlushPath := flushPath; Mode := mode; FlushAge := flushAge;
         Mount := mount; Storage_ := s |}.
End Main.

(** ** The cache operations behind [Plugin.Exec] *)

(** Time in seconds; a day of retention is 86400 of them. *)
Definition day : Z := 86400.

(** Modelled from the spec: the error taxonomy of the cache operations,
    which [Plugin.Exec] (outside [main.go]) reports: ConfigError,
    UsageError, ArchiveError and StorageTransportError; a miss is no error. *)
Inductive CacheError :=
| ConfigError (msg : string)
| UsageError (msg : string)
| ArchiveError (reason : string)
| StorageTransportError (key : string).

(** Modelled from the spec: a StoredObject of the storage namespace (outside
    [main.go]), a payload with its last-modified time, stored under its key. *)
Record StoredObject := { payload : string; lastModified : Z }.

(** Modelled from the spec: the storage namespace that the StorageClient
    capability (outside [main.go]) works on: the objects by key, and the keys
    on which the transport currently fails. *)
Record Backend := { objects : gmap string StoredObject; faults : gset string }.

(** Modelled from the spec: the answer of get, (payload, found, error);
    found=false is not an error. *)
Record GetResult := { got : string; found : bool; failure : option CacheError }.

Module StorageClient.
(** Modelled from the spec: put(key, payload) of the StorageClient (outside
    [main.go]): an overwrite; a failure leaves the previous object unchanged. *)
Definition put (key data : string) (now : Z) (b : Backend) : Backend * option CacheError :=
  if bool_decide (key ∈ faults b) then (b, Some (StorageTransportError key))
  else ({| objects := <[key := {| payload := data; lastModified := now |}]> (objects b);
           faults := faults b |}, None).

(** Modelled from the spec: get(key) of the StorageClient (outside
    [main.go]): (payload, found, error), where an absent key gives
    found=false and no error, and error is a transport failure. *)
Definition get (key : string) (b : Backend) : GetResult :=
  if bool_decide (key ∈ faults b)
  then {| got := ""; found := false; failure := Some (StorageTransportError key) |}
  else match objects b !! key with
       | Some o => {| got := payload o; found := true; failure := None |}
       | None => {| got := ""; found := false; failure := None |}
       end.

(** Modelled from the spec: list(prefix) of the StorageClient (outside
    [main.go]): every (key, lastModified) under the prefix. *)
Definition list (prefix : string) (b : Backend) : list (string * Z) :=
  omap (fun '(k, o) => if String.prefix prefix k then Some (k, lastModified o) else None)
       (map_to_list (objects b)).

(** Modelled from the spec: delete(key) of the StorageClient (outside
    [main.go]): idempotent; deleting an absent key is not an error. *)
Definition delete (key : string) (b : Backend) : Backend * option CacheError :=
  if bool_decide (key ∈ faults b) then (b, Some (StorageTransportError key))
  else ({| objects := base.delete key (objects b); faults := faults b |}, None).
End StorageClient.

(** The world a cache operation runs in: the storage namespace, the local
    files by path, and the clock. *)
Record World := { backend : Backend; files : gmap string string; now : Z }.

(** What a cache operation reports besides its error: the restored paths,
    whether a restore missed on both keys, and how many objects a flush
    deleted. *)
Record Report := { restored : list string; cache_miss : bool; deletedCount : nat }.

Definition nothing_done : Report := {| restored := []; cache_miss := false; deletedCount := 0 |}.

(** Process exit: success is 0, a fatal error is not. *)
Definition exit_code (err : option CacheError) : Z :=
  match err with None => 0 | Some _ => 1 end.

Module RetentionSweeper.
(** Modelled from the spec: the loop of sweep (the RetentionSweeper, outside
    [main.go]) over the listed objects: age = now - lastModified; when the
    age is strictly more than the threshold, delete(key) is issued; the loop
    goes on past a failed delete, counting successes and failures. *)
Fixpoint sweep_loop (maxAgeDays now : Z) (listed : list (string * Z)) (b : Backend)
    (deleted failed : nat) : Backend * nat * nat :=
  match listed with
  | [] => (b, deleted, failed)
  | (key, modified) :: rest =>
      let age := now - modified in
      if maxAgeDays * day <? age then
        match StorageClient.delete key b with
        | (b', None) => sweep_loop maxAgeDays now rest b' (S deleted) failed
        | (b', Some _) => sweep_loop maxAgeDays now rest b' deleted (S failed)
        end
      else sweep_loop maxAgeDays now rest b deleted failed
  end.

(** Modelled from the spec: sweep(prefix, maxAgeDays) -> (deletedCount,
    error) of the RetentionSweeper (outside [main.go]): a threshold that is
    not a non-negative integer is a ConfigError before any storage call; an
    aggregate error is reported only if at least one delete failed, with
    the count of those that succeeded. *)
Definition sweep (prefix : string) (maxAgeDays now : Z) (b : Backend)
  : Backend * (nat * option CacheError) :=
  if maxAgeDays <? 0 then (b, (O, Some (ConfigError "flush age must not be negative")))
  else
    let '(b', deleted, failed) :=
      sweep_loop maxAgeDays now (StorageClient.list prefix b) b 0 0 in
    (b', (deleted, match failed with
                   | O => None
                   | S _ => Some (StorageTransportError prefix)
                   end)).
End RetentionSweeper.

Section Cache.
Context {Storage : Type}.

(** The archive codec is left open by the spec (any container that round
    trips): bundle packs the mounts of the local files into a blob, extract
    unpacks a blob over the local files and names the restored paths. *)
Variable bundle : gmap string string -> list string -> CacheError + string.
Variable extract : string -> gmap string string -> CacheError + (gmap string string * list string).

(** Modelled from the spec: Rebuild(mounts, filename, path) of the
    CacheOrchestrator (outside [main.go]): a UsageError without mounts, else
    bundle and put at path+filename; any failure is fatal. *)
Definition Rebuild (mounts : list string) (filename path : string) (w : World)
  : World * (Report * option CacheError) :=
  match mounts with
  | [] => (w, (nothing_done, Some (UsageError "No mounts specified")))
  | _ =>
      match bundle (files w) mounts with
      | inl e => (w, (nothing_done, Some e))
      | inr blob =>
          let '(b', err) := StorageClient.put (path +:+ filename) blob (now w) (backend w) in
          ({| backend := b'; files := files w; now := now w |}, (nothing_done, err))
      end
  end.

(** The hit of a restore: extract into the working directory; a failed
    extraction is fatal. *)
Definition restore_hit (blob : string) (w : World) : World * (Report * option CacheError) :=
  match extract blob (files w) with
  | inl e => (w, (nothing_done, Some e))
  | inr (fs, paths) =>
      ({| backend := backend w; files := fs; now := now w |},
       ({| restored := paths; cache_miss := false; deletedCount := 0 |}, None))
  end.

(** Modelled from the spec: Restore(filename, path, fallbackPath) of the
    CacheOrchestrator (outside [main.go]): get path+filename; on
    found=false get fallbackPath+filename; if that is absent too the
    restore succeeds with zero files and a miss signal; a transport
    failure is fatal. *)
Definition Restore (filename path fallbackPath : string) (w : World)
  : World * (Report * option CacheError) :=
  let primary := StorageClient.get (path +:+ filename) (backend w) in
  match failure primary with
  | Some e => (w, (nothing_done, Some e))
  | None =>
      if found primary then restore_hit (got primary) w
      else
        let fallback := StorageClient.get (fallbackPath +:+ filename) (backend w) in
        match failure fallback with
        | Some e => (w, (nothing_done, Some e))
        | None =>
            if found fallback then restore_hit (got fallback) w
            else (w, ({| restored := []; cache_miss := true; deletedCount := 0 |}, None))
        end
  end.

(** Modelled from the spec: Flush(flushPrefix, flushAgeDays) of the
    CacheOrchestrator (outside [main.go]): delegates to the sweeper. *)
Definition Flush (flushPrefix : string) (flushAgeDays : Z) (w : World)
  : World * (Report * option CacheError) :=
  let '(b', (deleted, err)) :=
    RetentionSweeper.sweep flushPrefix flushAgeDays (now w) (backend w) in
  ({| backend := b'; files := files w; now := now w |},
   ({| restored := []; cache_miss := false; deletedCount := deleted |}, err)).

(** Modelled from the spec: [Plugin.Exec] (outside [main.go]), the mode
    state machine: one of exactly the three modes runs, once. *)
Definition Exec (p : @Plugin Storage) (w : World) : World * (Report * option CacheError) :=
  if String.eqb (Mode p) RebuildMode then Rebuild (Mount p) (Filename p) (Path p) w
  else if String.eqb (Mode p) RestoreMode then Restore (Filename p) (Path p) (FallbackPath p) w
  else if String.eqb (Mode p) FlushMode then Flush (FlushPath p) (FlushAge p) w
  else (w, (nothing_done, Some (UsageError "No action specified"))).
End Cache.

(** An archiver that packs nothing, to run restore and flush examples. *)
Definition bundle_nothing (_ : gmap string string) (_ : list string) : CacheError + string :=
  inr "".
Definition extract_nothing (_ : string) (fs : gmap string string)
  : CacheError + (gmap string string * list string) := inr (fs, []).

(** An instance of the storage constructor that always succeeds and hands
    back a client that remembers its options; used to run [run] on
    examples. *)
Definition client_of (o : s3.Options) : error + s3.Options := inr o.

(** ** Example options *)

(** A restore of acme/widget on branch feature-x, with credentials. *)
Definition options_acme : gmap string cli.FlagValue :=
  list_to_map
    [ ("restore", cli.VBool true);
      ("repo.owner", cli.VString "acme");
      ("repo.name", cli.VString "widget");
      ("commit.branch", cli.VString "feature-x");
      ("access-key", cli.VString "AK");
      ("secret-key", cli.VString "SK") ].

(** The same restore with the owner left out. *)
Definition options_no_owner : gmap string cli.FlagValue := delete "repo.owner" options_acme.


(** The options of [options_acme] for a flush, with a flush path supplied. *)
Definition options_flush_path : gmap string cli.FlagValue :=
  <["flush_path" := cli.VString "/shared/cache/"]>
    (<["path" := cli.VString "/shared/cache/feature-x/"]>
       (<["flush" := cli.VBool true]> (delete "restore" options_acme))).

(** The restore of [options_acme] with a flush age that is no number, and
    with a server that is no HTTP URI. *)
Definition options_bad_age : gmap string cli.FlagValue :=
  <["flush_age" := cli.VString "a month"]> options_acme.
Definition options_bad_server : gmap string cli.FlagValue :=
  <["server" := cli.VString "ftp://cache"]> options_acme.

(** The client that [s3Storage] asks for with [options_acme]. *)
Definition client_acme : s3.Options :=
  {| s3.Endpoint := "s3.amazonaws.com"; s3.Access := "AK"; s3.Secret := "SK";
     s3.UseSSL := true |}.

(** The plugin that [run] builds for [options_acme]. *)
Definition plugin_restore : @Plugin s3.Options :=
  {| Filename := "archive.tar"; Path := "/acme/widget/feature-x/";
     FallbackPath := "/acme/widget/master/"; FlushPath := "/acme/widget/";
     Mode := RestoreMode; FlushAge := 30; Mount := [];
     Storage_ := {| s3.Endpoint := "s3.amazonaws.com"; s3.Access := "AK";
                    s3.Secret := "SK"; s3.UseSSL := true |} |}.

(** The same plugin in flush mode. *)
Definition plugin_flush : @Plugin s3.Options :=
  {| Filename := "archive.tar"; Path := "/acme/widget/feature-x/";
     FallbackPath := "/acme/widget/master/"; FlushPath := "/acme/widget/";
     Mode := FlushMode; FlushAge := 30; Mount := [];
     Storage_ := {| s3.Endpoint := "s3.amazonaws.com"; s3.Access := "AK";
                    s3.Secret := "SK"; s3.UseSSL := true |} |}.

(** A first build: nothing is stored yet. *)
Definition world_cold : World :=
  {| backend := {| objects := ∅; faults := ∅ |}; files := ∅; now := 100 * day |}.

(** On day 100: archives of acme/widget that are 31, 30 and 29 days old,
    and one of another repository that is 100 days old. *)
Definition world_aged : World :=
  {| backend :=
       {| objects :=
            list_to_map
              [ ("/acme/widget/feature-x/archive.tar",
                 {| payload := "x"; lastModified := 69 * day |});
                ("/acme/widget/master/archive.tar",
                 {| payload := "m"; lastModified := 70 * day |});
                ("/acme/widget/hotfix/archive.tar",
                 {| payload := "h"; lastModified := 71 * day |});
                ("/acme/gadget/master/archive.tar",
                 {| payload := "g"; lastModified := 0 |}) ];
          faults := ∅ |};
     files := ∅;
     now := 100 * day |}.

(** A rebuild of two mounts against a private server, with every path and
    the file name given. *)
Definition options_rebuild : gmap string cli.FlagValue :=
  list_to_map
    [ ("rebuild", cli.VBool true);
      ("mount", cli.VStringSlice ["node_modules"; "vendor"]);
      ("path", cli.VString "/shared/cache/feature-x/");
      ("fallback_path", cli.VString "/shared/cache/master/");
      ("filename", cli.VString "deps.tar");
      ("repo.owner", cli.VString "acme");
      ("repo.name", cli.VString "widget");
      ("server", cli.VString "https://minio.local:9000");
      ("access-key", cli.VString "AK");
      ("secret-key", cli.VString "SK") ].

(** The client that [s3Storage] asks for with [options_rebuild]. *)
Definition client_minio : s3.Options :=
  {| s3.Endpoint := "minio.local:9000"; s3.Access := "AK"; s3.Secret := "SK";
     s3.UseSSL := true |}.

(** The plugin that [run] builds for [options_rebuild]. *)
Definition plugin_rebuild : @Plugin s3.Options :=
  {| Filename := "deps.tar"; Path := "/shared/cache/feature-x/";
     FallbackPath := "/shared/cache/master/"; FlushPath := "/acme/widget/";
     Mode := RebuildMode; FlushAge := 30; Mount := ["node_modules"; "vendor"];
     Storage_ := client_minio |}.

(** The context of [options_acme] with the debug flag switched on. *)
Definition context_debug : cli.Context :=
  {| cli.flagSet := <["debug" := cli.VBool true]> (cli.flagSet (app_Context options_acme)) |}.

(** The restore of [options_acme] without the secret key. *)
Definition options_no_secret : gmap string cli.FlagValue := delete "secret-key" options_acme.

(** A storage constructor that refuses every client. *)
Definition client_refused (o : s3.Options) : error + s3.Options :=
  inl (Foreign "connection refused").

(** The number of [true] entries of a list of booleans. *)
Definition count_true (bools : list bool) : nat := count_occ Bool.bool_dec bools true.

(** * Properties *)

(** ** The [Run] computations *)

Lemma bind_fail {A B} (m : Run A) (k : A -> Run B) e :
  result m = inl e -> bind m k = (trace m, inl e).
Proof. destruct m as [t [e'|a]]; simpl; intros H; congruence. Qed.

Lemma bind_ok {A B} (m : Run A) (k : A -> Run B) a :
  result m = inr a -> bind m k = ((trace m ++ trace (k a))%list, result (k a)).
Proof.
  destruct m as [t [e'|a']]; simpl; intros H; [discriminate|].
  injection H as ->. now destruct (k a).
Qed.

Lemma bind_inr {A B} (m : Run A) (k : A -> Run B) b :
  result (bind m k) = inr b -> exists a, result m = inr a /\ result (k a) = inr b.
Proof.
  destruct m as [t [e|a]]; simpl; [discriminate|].
  intros H. exists a. split; [reflexivity|]. now destruct (k a).
Qed.

Lemma no_storage_app t1 t2 :
  no_storage (t1 ++ t2) = no_storage t1 && no_storage t2.
Proof. apply forallb_app. Qed.

(** ** [isMultipleModes] *)

Lemma isMultipleModes_from_count b bools :
  isMultipleModes_from b bools = (2 <=? (if b then 1 else 0) + count_true bools)%nat.
Proof.
  revert b. induction bools as [|v rest IH]; intros b.
  - now destruct b.
  - unfold count_true in *. destruct b, v; simpl; rewrite ?IH; reflexivity.
Qed.

(** C9: [isMultipleModes] answers true exactly when at least two of its
    arguments are true; it answers false on no arguments and whenever
    exactly one argument is true. *)
Theorem isMultipleModes_two_or_more (bools : list bool) :
  (isMultipleModes bools = true <-> (2 <= count_true bools)%nat) /\
  isMultipleModes [] = false /\
  (count_true bools = 1%nat -> isMultipleModes bools = false).
Proof.
  unfold isMultipleModes. rewrite isMultipleModes_from_count.
  change ((if false then 1 else 0) + count_true bools)%nat with (count_true bools).
  split; [apply Nat.leb_le | split; [reflexivity | intros ->; reflexivity]].
Qed.

Lemma isMultipleModes_two_or_more_witness :
  isMultipleModes [false; true; false] = false.
Proof.
  apply (proj2 (proj2 (isMultipleModes_two_or_more [false; true; false]))).
  reflexivity.
Defined.

Section MainProperties.
Context {Storage : Type}.
Variable s3_New : s3.Options -> error + Storage.

Lemma run_debug_ok c : result (run_debug c) = inr tt.
Proof. unfold run_debug. now destruct (cli.Bool c "debug"). Qed.

Lemma run_debug_no_storage c : no_storage (trace (run_debug c)) = true.
Proof. unfold run_debug. now destruct (cli.Bool c "debug"). Qed.

(** An early return of the mode block is an early return of [run], with
    nothing but the log-level event before it. *)
Lemma run_mode_fail c e :
  run_mode c = ([], inl e) -> run s3_New c = (trace (run_debug c), inl e).
Proof.
  intros H. unfold run.
  rewrite (bind_ok _ _ tt (run_debug_ok c)). rewrite H. simpl.
  now rewrite app_nil_r.
Qed.

(** C2: when more than one of rebuild, restore and flush is set, [run]
    returns the single-mode error; when none is set it returns the
    no-action error; either way it returns before the storage constructor
    is called and without reaching the plugin. *)
Theorem mode_conflict_before_storage (c : cli.Context) :
  let selected := count_true [cli.Bool c "rebuild"; cli.Bool c "restore"; cli.Bool c "flush"] in
  ((2 <= selected)%nat ->
     result (run s3_New c) = inl (errorString "Must use a single mode: rebuild, restore or flush") /\
     no_storage (trace (run s3_New c)) = true) /\
  (selected = 0%nat ->
     result (run s3_New c) = inl (errorString "No action specified") /\
     no_storage (trace (run s3_New c)) = true).
Proof.
  split; intros H.
  - rewrite (run_mode_fail c (errorString "Must use a single mode: rebuild, restore or flush")).
    + split; [reflexivity | apply run_debug_no_storage].
    + unfold run_mode.
      destruct (cli.Bool c "rebuild"), (cli.Bool c "restore"), (cli.Bool c "flush");
        try reflexivity; vm_compute in H; lia.
  - rewrite (run_mode_fail c (errorString "No action specified")).
    + split; [reflexivity | apply run_debug_no_storage].
    + unfold run_mode.
      destruct (cli.Bool c "rebuild"), (cli.Bool c "restore"), (cli.Bool c "flush");
        try reflexivity; vm_compute in H; lia.
Qed.

(** C3: with rebuild alone selected and no mount given, [run] returns the
    error "No mounts specified" before the storage constructor is called
    and without reaching the plugin. *)
Theorem rebuild_without_mounts (c : cli.Context) :
  cli.Bool c "rebuild" = true ->
  cli.Bool c "restore" = false ->
  cli.Bool c "flush" = false ->
  cli.StringSlice c "mount" = [] ->
  result (run s3_New c) = inl (errorString "No mounts specified") /\
  no_storage (trace (run s3_New c)) = true.
Proof.
  intros Hrb Hrs Hfl Hm.
  rewrite (run_mode_fail c (errorString "No mounts specified")).
  - split; [reflexivity | apply run_debug_no_storage].
  - unfold run_mode. rewrite Hrb, Hrs, Hfl, Hm. reflexivity.
Qed.
(** *** The stages of [run] *)

Lemma len_zero s : (len s =? 0) = true <-> s = "".
Proof.
  unfold len. destruct s; simpl; split; intros H; try reflexivity; try discriminate.
Qed.

Lemma len_nonzero s : s <> "" -> (len s =? 0) = false.
Proof. unfold len. destruct s; simpl; intros H; [congruence | reflexivity]. Qed.

Lemma len_positive s : s <> "" -> (0 <? len s) = true.
Proof. unfold len. destruct s; simpl; intros H; [congruence | reflexivity]. Qed.

Lemma result_bind_ok {A B} (m : Run A) (k : A -> Run B) a :
  result m = inr a -> result (bind m k) = result (k a).
Proof. intros H. now rewrite (bind_ok _ _ _ H). Qed.

Lemma result_bind_fail {A B} (m : Run A) (k : A -> Run B) e :
  result m = inl e -> result (bind m k) = inl e.
Proof. intros H. now rewrite (bind_fail _ _ _ H). Qed.

Lemma trace_bind_ok {A B} (m : Run A) (k : A -> Run B) a :
  result m = inr a -> trace (bind m k) = (trace m ++ trace (k a))%list.
Proof. intros H. now rewrite (bind_ok _ _ _ H). Qed.

Lemma trace_bind_fail {A B} (m : Run A) (k : A -> Run B) e :
  result m = inl e -> trace (bind m k) = trace m.
Proof. intros H. now rewrite (bind_fail _ _ _ H). Qed.

(** The path written to the plugin: the option when given, else the default. *)
Lemma run_path_result c :
  result (run_path c) =
  inr (if len (cli.GlobalString c "path") =? 0
       then Sprintf3 (cli.String c "repo.owner") (cli.String c "repo.name")
              (cli.String c "commit.branch")
       else cli.GlobalString c "path").
Proof. unfold run_path. now destruct (len _ =? 0). Qed.

Lemma run_fallbackPath_result c :
  result (run_fallbackPath c) =
  inr (if len (cli.GlobalString c "fallback_path") =? 0
       then Sprintf_master (cli.String c "repo.owner") (cli.String c "repo.name")
       else cli.GlobalString c "fallback_path").
Proof. unfold run_fallbackPath. now destruct (len _ =? 0). Qed.

Lemma run_flushPath_result c :
  result (run_flushPath c) =
  inr (if len (cli.GlobalString c "flush_path") =? 0
       then Sprintf2 (cli.String c "repo.owner") (cli.String c "repo.name")
       else cli.GlobalString c "flush_path").
Proof. unfold run_flushPath. now destruct (len _ =? 0). Qed.

Lemma run_filename_result c :
  result (run_filename c) =
  inr (if len (cli.GlobalString c "filename") =? 0 then "archive.tar"
       else cli.GlobalString c "filename").
Proof. unfold run_filename. now destruct (len _ =? 0). Qed.

Lemma run_path_no_storage c : no_storage (trace (run_path c)) = true.
Proof. unfold run_path. now destruct (len _ =? 0). Qed.

Lemma run_fallbackPath_no_storage c : no_storage (trace (run_fallbackPath c)) = true.
Proof. unfold run_fallbackPath. now destruct (len _ =? 0). Qed.

Lemma run_flushPath_no_storage c : no_storage (trace (run_flushPath c)) = true.
Proof. unfold run_flushPath. now destruct (len _ =? 0). Qed.

Lemma run_filename_no_storage c : no_storage (trace (run_filename c)) = true.
Proof. unfold run_filename. now destruct (len _ =? 0). Qed.

Lemma run_mode_trace c : trace (run_mode c) = [].
Proof.
  unfold run_mode.
  destruct (cli.Bool c "rebuild"), (cli.Bool c "restore"), (cli.Bool c "flush");
    simpl; try reflexivity; now destruct (Z.of_nat _ =? 0).
Qed.

(** A client returned by [s3Storage] comes from a call of the constructor. *)
Lemma s3Storage_ok_constructs c s :
  result (s3Storage s3_New c) = inr s -> no_storage (trace (s3Storage s3_New c)) = false.
Proof.
  unfold s3Storage.
  destruct (0 <? len (cli.String c "server"));
    [destruct (strings.HasPrefix (cli.String c "server") "https://"); simpl;
     [|destruct (strings.HasPrefix (cli.String c "server") "http://"); simpl] |];
    try discriminate;
    (destruct ((len (cli.String c "access-key") =? 0) || (len (cli.String c "secret-key") =? 0));
     simpl; [discriminate|]);
    destruct (s3_New _); simpl; intros H; try discriminate; reflexivity.
Qed.

(** [run] succeeds exactly when its mode block, [s3Storage] and the
    flush-age conversion do; the plugin is then assembled from the stages. *)
Lemma run_ok c mode mount s flushAge :
  result (run_mode c) = inr (mode, mount) ->
  result (s3Storage s3_New c) = inr s ->
  strconv.Atoi (cli.String c "flush_age") = inr flushAge ->
  exists path fallbackPath flushPath filename,
    result (run_path c) = inr path /\
    result (run_fallbackPath c) = inr fallbackPath /\
    result (run_flushPath c) = inr flushPath /\
    result (run_filename c) = inr filename /\
    result (run s3_New c) =
      inr {| Filename := filename; Path := path; FallbackPath := fallbackPath;
             FlushPath := flushPath; Mode := mode; FlushAge := flushAge;
             Mount := mount; Storage_ := s |}.
Proof.
  intros Hm Hs Ha.
  eexists _, _, _, _.
  repeat (split; [first [apply run_path_result | apply run_fallbackPath_result
                        | apply run_flushPath_result | apply run_filename_result]|]).
  unfold run.
  rewrite (result_bind_ok _ _ _ (run_debug_ok c)).
  rewrite (result_bind_ok _ _ _ Hm).
  rewrite (result_bind_ok _ _ _ (run_path_result c)).
  rewrite (result_bind_ok _ _ _ (run_fallbackPath_result c)).
  rewrite (result_bind_ok _ _ _ (run_flushPath_result c)).
  rewrite (result_bind_ok _ _ _ (run_filename_result c)).
  rewrite (result_bind_ok _ _ _ Hs).
  rewrite Ha. reflexivity.
Qed.

Lemma run_inv c p :
  result (run s3_New c) = inr p ->
  result (run_mode c) = inr (Mode p, Mount p) /\
  result (run_path c) = inr (Path p) /\
  result (run_fallbackPath c) = inr (FallbackPath p) /\
  result (run_flushPath c) = inr (FlushPath p) /\
  result (run_filename c) = inr (Filename p) /\
  result (s3Storage s3_New c) = inr (Storage_ p) /\
  strconv.Atoi (cli.String c "flush_age") = inr (FlushAge p).
Proof.
  unfold run. intros H.
  apply bind_inr in H as (_ & _ & H).
  apply bind_inr in H as ([mode mount] & Hm & H).
  apply bind_inr in H as (path & Hp & H).
  apply bind_inr in H as (fb & Hfb & H).
  apply bind_inr in H as (fl & Hfl & H).
  apply bind_inr in H as (fn & Hfn & H).
  apply bind_inr in H as (s & Hs & H).
  apply bind_inr in H as (n & Hn & H).
  simpl in Hn, H. injection H as <-. simpl. auto 10.
Qed.

(** A failure of a late stage is a failure of [run] once the mode block
    has passed. *)
Lemma run_fail_s3 c m e :
  result (run_mode c) = inr m -> result (s3Storage s3_New c) = inl e ->
  result (run s3_New c) = inl e.
Proof.
  intros Hm Hs. unfold run.
  rewrite (result_bind_ok _ _ _ (run_debug_ok c)).
  rewrite (result_bind_ok _ _ _ Hm). destruct m as [mode mount].
  rewrite (result_bind_ok _ _ _ (run_path_result c)).
  rewrite (result_bind_ok _ _ _ (run_fallbackPath_result c)).
  rewrite (result_bind_ok _ _ _ (run_flushPath_result c)).
  rewrite (result_bind_ok _ _ _ (run_filename_result c)).
  now rewrite (result_bind_fail _ _ _ Hs).
Qed.

Lemma run_fail_Atoi c m s e :
  result (run_mode c) = inr m -> result (s3Storage s3_New c) = inr s ->
  strconv.Atoi (cli.String c "flush_age") = inl e ->
  result (run s3_New c) = inl e.
Proof.
  intros Hm Hs Ha. unfold run.
  rewrite (result_bind_ok _ _ _ (run_debug_ok c)).
  rewrite (result_bind_ok _ _ _ Hm). destruct m as [mode mount].
  rewrite (result_bind_ok _ _ _ (run_path_result c)).
  rewrite (result_bind_ok _ _ _ (run_fallbackPath_result c)).
  rewrite (result_bind_ok _ _ _ (run_flushPath_result c)).
  rewrite (result_bind_ok _ _ _ (run_filename_result c)).
  rewrite (result_bind_ok _ _ _ Hs).
  now rewrite Ha.
Qed.

Lemma run_fail_mode c e :
  result (run_mode c) = inl e -> result (run s3_New c) = inl e.
Proof.
  intros Hm. unfold run.
  rewrite (result_bind_ok _ _ _ (run_debug_ok c)).
  now rewrite (result_bind_fail _ _ _ Hm).
Qed.

(** Whether the storage constructor was called along [run]: never when
    the mode block fails, and otherwise exactly when [s3Storage] called it. *)
Lemma run_no_storage c :
  no_storage (trace (run s3_New c)) =
  match result (run_mode c) with
  | inl _ => true
  | inr _ => no_storage (trace (s3Storage s3_New c))
  end.
Proof.
  unfold run.
  rewrite (trace_bind_ok _ _ _ (run_debug_ok c)), no_storage_app, run_debug_no_storage.
  destruct (result (run_mode c)) as [e|[mode mount]] eqn:Hm.
  - now rewrite (trace_bind_fail _ _ _ Hm), run_mode_trace.
  - rewrite (trace_bind_ok _ _ _ Hm), run_mode_trace, app_nil_l.
    rewrite (trace_bind_ok _ _ _ (run_path_result c)), no_storage_app, run_path_no_storage.
    rewrite (trace_bind_ok _ _ _ (run_fallbackPath_result c)), no_storage_app,
      run_fallbackPath_no_storage.
    rewrite (trace_bind_ok _ _ _ (run_flushPath_result c)), no_storage_app,
      run_flushPath_no_storage.
    rewrite (trace_bind_ok _ _ _ (run_filename_result c)), no_storage_app,
      run_filename_no_storage.
    simpl.
    destruct (result (s3Storage s3_New c)) as [e|s] eqn:Hs.
    + now rewrite (trace_bind_fail _ _ _ Hs).
    + rewrite (trace_bind_ok _ _ _ Hs), no_storage_app.
      rewrite (s3Storage_ok_constructs _ _ Hs). reflexivity.
Qed.
(** *** Path defaulting *)

(** C1: when path, fallback path and flush path are all empty and owner,
    repo and branch are not, the three paths are "/owner/repo/branch/",
    "/owner/repo/master/" (the literal master, whatever the branch) and
    "/owner/repo/", and these are the paths of the plugin that [run]
    builds. *)
Theorem default_paths (c : cli.Context) :
  let owner := cli.String c "repo.owner" in
  let repo := cli.String c "repo.name" in
  let branch := cli.String c "commit.branch" in
  cli.GlobalString c "path" = "" ->
  cli.GlobalString c "fallback_path" = "" ->
  cli.GlobalString c "flush_path" = "" ->
  owner <> "" -> repo <> "" -> branch <> "" ->
  (result (run_path c), result (run_fallbackPath c), result (run_flushPath c)) =
    (inr ("/" +:+ owner +:+ "/" +:+ repo +:+ "/" +:+ branch +:+ "/"),
     inr ("/" +:+ owner +:+ "/" +:+ repo +:+ "/master/"),
     inr ("/" +:+ owner +:+ "/" +:+ repo +:+ "/")) /\
  forall p, result (run s3_New c) = inr p ->
    (Path p, FallbackPath p, FlushPath p) =
      ("/" +:+ owner +:+ "/" +:+ repo +:+ "/" +:+ branch +:+ "/",
       "/" +:+ owner +:+ "/" +:+ repo +:+ "/master/",
       "/" +:+ owner +:+ "/" +:+ repo +:+ "/").
Proof.
  intros owner repo branch Hp Hfb Hfl _ _ _.
  assert (Hpaths :
    result (run_path c) = inr (Sprintf3 owner repo branch) /\
    result (run_fallbackPath c) = inr (Sprintf_master owner repo) /\
    result (run_flushPath c) = inr (Sprintf2 owner repo)).
  { rewrite run_path_result, run_fallbackPath_result, run_flushPath_result.
    rewrite Hp, Hfb, Hfl. auto. }
  destruct Hpaths as (H1 & H2 & H3). split.
  - rewrite H1, H2, H3. reflexivity.
  - intros p Hrun. apply run_inv in Hrun as (_ & Hp' & Hfb' & Hfl' & _).
    rewrite H1 in Hp'. rewrite H2 in Hfb'. rewrite H3 in Hfl'.
    injection Hp' as <-. injection Hfb' as <-. injection Hfl' as <-. reflexivity.
Qed.

(** C6, as the code has it: [run] has no check on owner and repo.  Whenever
    the mode block, [s3Storage] and the flush-age conversion succeed, [run]
    succeeds, and every path that needed defaulting is spelled from owner,
    repo and branch as they are, empty or not. *)
Theorem defaults_from_empty_components (c : cli.Context) mode mount s flushAge :
  let owner := cli.String c "repo.owner" in
  let repo := cli.String c "repo.name" in
  let branch := cli.String c "commit.branch" in
  result (run_mode c) = inr (mode, mount) ->
  result (s3Storage s3_New c) = inr s ->
  strconv.Atoi (cli.String c "flush_age") = inr flushAge ->
  exists p, result (run s3_New c) = inr p /\
    (cli.GlobalString c "path" = "" ->
       Path p = "/" +:+ owner +:+ "/" +:+ repo +:+ "/" +:+ branch +:+ "/") /\
    (cli.GlobalString c "fallback_path" = "" ->
       FallbackPath p = "/" +:+ owner +:+ "/" +:+ repo +:+ "/master/") /\
    (cli.GlobalString c "flush_path" = "" ->
       FlushPath p = "/" +:+ owner +:+ "/" +:+ repo +:+ "/").
Proof.
  intros owner repo branch Hm Hs Ha.
  destruct (run_ok c _ _ _ _ Hm Hs Ha) as (path & fb & fl & fn & Hp & Hfb & Hfl & _ & Hrun).
  eexists. split; [exact Hrun|]. simpl.
  rewrite run_path_result in Hp. rewrite run_fallbackPath_result in Hfb.
  rewrite run_flushPath_result in Hfl.
  injection Hp as <-. injection Hfb as <-. injection Hfl as <-.
  repeat split; intros ->; reflexivity.
Qed.

(** *** The flush age *)




(** *** The server option *)

(** C10: a server that is not empty and starts with neither "http://" nor
    "https://" makes [s3Storage] fail with the invalid-server error before
    it calls the constructor, and [run] then fails without reaching the
    plugin; with an empty server, the constructor is called (when the
    credentials are there) on the endpoint "s3.amazonaws.com" with SSL on. *)
Theorem server_option (c : cli.Context) :
  let server := cli.String c "server" in
  let access := cli.String c "access-key" in
  let secret := cli.String c "secret-key" in
  (server <> "" ->
   strings.HasPrefix server "http://" = false ->
   strings.HasPrefix server "https://" = false ->
     s3Storage s3_New c =
       ([], inl (errorString ("Invalid server " +:+ server +:+ ". Needs to be a HTTP URI"))) /\
     (exists e, result (run s3_New c) = inl e) /\
     (forall m, result (run_mode c) = inr m ->
        result (run s3_New c) =
          inl (errorString ("Invalid server " +:+ server +:+ ". Needs to be a HTTP URI"))) /\
     no_storage (trace (run s3_New c)) = true) /\
  (server = "" ->
     s3Storage s3_New c =
       if (len access =? 0) || (len secret =? 0)
       then ([], inl (errorString "No access credentials provided"))
       else
         let o := {| s3.Endpoint := "s3.amazonaws.com"; s3.Access := access;
                     s3.Secret := secret; s3.UseSSL := true |} in
         ([S3New o], s3_New o)).
Proof.
  intros server access secret. split.
  - intros Hne Hhttp Hhttps.
    assert (Hs : s3Storage s3_New c =
      ([], inl (errorString ("Invalid server " +:+ server +:+ ". Needs to be a HTTP URI")))).
    { unfold s3Storage. fold server. rewrite (len_positive _ Hne), Hhttps, Hhttp.
      reflexivity. }
    split; [exact Hs|]. split; [|split].
    + destruct (result (run_mode c)) as [em|m] eqn:Hm.
      * exists em. now apply run_fail_mode.
      * eexists. apply (run_fail_s3 c m _ Hm). now rewrite Hs.
    + intros m Hm. apply (run_fail_s3 c m _ Hm). now rewrite Hs.
    + rewrite run_no_storage, Hs. now destruct (result (run_mode c)).
  - intros Hempty. unfold s3Storage. fold server access secret. rewrite Hempty.
    simpl. now destruct ((len access =? 0) || (len secret =? 0)).
Qed.
End MainProperties.

(** ** The flags that [main] declares *)

(** The flag set holds the declared flags and nothing else. *)
Lemma parse_lookup flags (supplied : gmap string cli.FlagValue) name :
  cli.parse flags supplied !! name =
  cli.apply supplied <$> find (fun f => String.eqb (cli.Name f) name) flags.
Proof.
  induction flags as [|f rest IH]; simpl.
  - apply lookup_empty.
  - rewrite lookup_insert. destruct (String.eqb_spec (cli.Name f) name) as [E|E].
    + now rewrite decide_True.
    + now rewrite decide_False.
Qed.

Lemma app_Context_undeclared (supplied : gmap string cli.FlagValue) name :
  forallb (fun f => negb (String.eqb (cli.Name f) name)) app_Flags = true ->
  cli.flagSet (app_Context supplied) !! name = None.
Proof.
  intros H. change (cli.flagSet (app_Context supplied)) with (cli.parse app_Flags supplied).
  rewrite parse_lookup.
  induction app_Flags as [|f rest IH]; [reflexivity|].
  simpl in H |- *. apply andb_prop in H as [Hf Hrest].
  apply negb_true_iff in Hf. rewrite Hf. now apply IH.
Qed.

Lemma app_Context_string (supplied : gmap string cli.FlagValue) name usage envVar value s :
  find (fun f => String.eqb (cli.Name f) name) app_Flags =
    Some (cli.StringFlag name usage envVar value) ->
  supplied !! name = Some (cli.VString s) ->
  cli.GlobalString (app_Context supplied) name = s.
Proof.
  intros Hfind Hs. unfold cli.GlobalString.
  change (cli.flagSet (app_Context supplied)) with (cli.parse app_Flags supplied).
  rewrite parse_lookup, Hfind. simpl. unfold cli.apply. simpl. now rewrite Hs.
Qed.

(** C7: [main] declares no flag named flush_path, so the flag set never
    holds one: whatever is supplied from outside, [run] reads the empty
    string and takes the default "/owner/repo/".  The sibling options path
    and fallback_path are declared, and are read as supplied. *)
Theorem flush_path_is_not_declared (supplied : gmap string cli.FlagValue) :
  let c := app_Context supplied in
  cli.GlobalString c "flush_path" = "" /\
  result (run_flushPath c) =
    inr ("/" +:+ cli.String c "repo.owner" +:+ "/" +:+ cli.String c "repo.name" +:+ "/") /\
  (forall s, supplied !! "path" = Some (cli.VString s) -> cli.GlobalString c "path" = s) /\
  (forall s, supplied !! "fallback_path" = Some (cli.VString s) ->
     cli.GlobalString c "fallback_path" = s).
Proof.
  intros c.
  assert (H : cli.GlobalString c "flush_path" = "").
  { unfold cli.GlobalString, c. now rewrite app_Context_undeclared. }
  split; [exact H|]. split; [|split].
  - rewrite run_flushPath_result, H. reflexivity.
  - intros s. now apply (app_Context_string supplied "path" "path" "PLUGIN_PATH" "").
  - intros s. now apply (app_Context_string supplied "fallback_path" "fallback_path"
                           "PLUGIN_FALLBACK_PATH" "").
Qed.

(** ** Examples *)

Lemma default_paths_witness :
  (result (run_path (app_Context options_acme)),
   result (run_fallbackPath (app_Context options_acme)),
   result (run_flushPath (app_Context options_acme))) =
  (inr "/acme/widget/feature-x/", inr "/acme/widget/master/", inr "/acme/widget/").
Proof.
  assert (Hp : cli.GlobalString (app_Context options_acme) "path" = "")
    by (vm_compute; reflexivity).
  assert (Hfb : cli.GlobalString (app_Context options_acme) "fallback_path" = "")
    by (vm_compute; reflexivity).
  assert (Hfl : cli.GlobalString (app_Context options_acme) "flush_path" = "")
    by (vm_compute; reflexivity).
  assert (Ho : cli.String (app_Context options_acme) "repo.owner" <> "")
    by (vm_compute; discriminate).
  assert (Hr : cli.String (app_Context options_acme) "repo.name" <> "")
    by (vm_compute; discriminate).
  assert (Hb : cli.String (app_Context options_acme) "commit.branch" <> "")
    by (vm_compute; discriminate).
  exact (proj1 (default_paths client_of (app_Context options_acme) Hp Hfb Hfl Ho Hr Hb)).
Defined.

(** [run] on [options_acme] builds [plugin_restore]. *)
Example run_options_acme :
  result (run client_of (app_Context options_acme)) = inr plugin_restore.
Proof. vm_compute. reflexivity. Qed.

Lemma mode_conflict_before_storage_witness :
  (result (run client_of (app_Context (<["flush" := cli.VBool true]> options_acme))) =
     inl (errorString "Must use a single mode: rebuild, restore or flush") /\
   no_storage (trace (run client_of (app_Context (<["flush" := cli.VBool true]> options_acme))))
     = true) /\
  (result (run client_of (app_Context ∅)) = inl (errorString "No action specified") /\
   no_storage (trace (run client_of (app_Context ∅))) = true).
Proof.
  split.
  - apply (proj1 (mode_conflict_before_storage client_of
                    (app_Context (<["flush" := cli.VBool true]> options_acme)))).
    vm_compute. lia.
  - apply (proj2 (mode_conflict_before_storage client_of (app_Context ∅))).
    vm_compute. reflexivity.
Defined.

Lemma rebuild_without_mounts_witness :
  result (run client_of (app_Context {[ "rebuild" := cli.VBool true ]})) =
    inl (errorString "No mounts specified") /\
  no_storage (trace (run client_of (app_Context {[ "rebuild" := cli.VBool true ]}))) = true.
Proof.
  apply (rebuild_without_mounts client_of (app_Context {[ "rebuild" := cli.VBool true ]}));
    vm_compute; reflexivity.
Defined.

(** C6 fails on the code: with an empty owner and every path defaulted,
    [run] returns no error; the plugin gets paths with an empty first
    component. *)
Lemma empty_owner_is_not_rejected :
  cli.String (app_Context options_no_owner) "repo.owner" = "" /\
  cli.GlobalString (app_Context options_no_owner) "path" = "" /\
  exists p, result (run client_of (app_Context options_no_owner)) = inr p /\
    Path p = "//widget/feature-x/" /\
    FallbackPath p = "//widget/master/" /\
    FlushPath p = "//widget/".
Proof.
  split; [reflexivity|]. split; [reflexivity|].
  eexists. split; [vm_compute; reflexivity|]. repeat split.
Qed.

Lemma defaults_from_empty_components_witness :
  exists p, result (run client_of (app_Context options_no_owner)) = inr p /\
    (cli.GlobalString (app_Context options_no_owner) "path" = "" ->
       Path p = "//widget/feature-x/") /\
    (cli.GlobalString (app_Context options_no_owner) "fallback_path" = "" ->
       FallbackPath p = "//widget/master/") /\
    (cli.GlobalString (app_Context options_no_owner) "flush_path" = "" ->
       FlushPath p = "//widget/").
Proof.
  apply (defaults_from_empty_components client_of (app_Context options_no_owner)
           RestoreMode []
           {| s3.Endpoint := "s3.amazonaws.com"; s3.Access := "AK"; s3.Secret := "SK";
              s3.UseSSL := true |} 30);
    vm_compute; reflexivity.
Defined.



Lemma server_option_witness :
  s3Storage client_of (app_Context options_bad_server) =
    ([], inl (errorString ("Invalid server " +:+
                           cli.String (app_Context options_bad_server) "server" +:+
                           ". Needs to be a HTTP URI"))).
Proof.
  assert (Hne : cli.String (app_Context options_bad_server) "server" <> "")
    by (vm_compute; discriminate).
  assert (Hhttp : strings.HasPrefix (cli.String (app_Context options_bad_server) "server")
                    "http://" = false) by (vm_compute; reflexivity).
  assert (Hhttps : strings.HasPrefix (cli.String (app_Context options_bad_server) "server")
                     "https://" = false) by (vm_compute; reflexivity).
  destruct (server_option client_of (app_Context options_bad_server)) as [H _].
  exact (proj1 (H Hne Hhttp Hhttps)).
Defined.

Lemma flush_path_is_not_declared_witness :
  cli.GlobalString (app_Context options_flush_path) "path" = "/shared/cache/feature-x/".
Proof.
  assert (Hp : options_flush_path !! "path" = Some (cli.VString "/shared/cache/feature-x/"))
    by (vm_compute; reflexivity).
  destruct (flush_path_is_not_declared options_flush_path) as (_ & _ & H & _).
  exact (H _ Hp).
Defined.

(** The supplied flush path is lost, the supplied path is kept. *)
Example flush_path_supplied_and_ignored :
  options_flush_path !! "flush_path" = Some (cli.VString "/shared/cache/") /\
  exists p, result (run client_of (app_Context options_flush_path)) = inr p /\
    Mode p = FlushMode /\
    Path p = "/shared/cache/feature-x/" /\
    FlushPath p = "/acme/widget/".
Proof.
  split; [vm_compute; reflexivity|].
  eexists. split; [vm_compute; reflexivity|]. repeat split.
Qed.

(** ** The cache operations *)

Lemma delete_faults key b : faults (fst (StorageClient.delete key b)) = faults b.
Proof. unfold StorageClient.delete. now destruct (bool_decide (key ∈ faults b)). Qed.

(** What the sweep loop leaves of the namespace: a key is gone when it was
    listed with an age over the threshold and its delete did not fail. *)
Lemma sweep_loop_objects maxAgeDays now listed : forall b deleted failed k,
  objects (RetentionSweeper.sweep_loop maxAgeDays now listed b deleted failed).1.1 !! k =
  if existsb (fun '(key, modified) => String.eqb key k && (maxAgeDays * day <? now - modified))
       listed && negb (bool_decide (k ∈ faults b))
  then None else objects b !! k.
Proof.
  induction listed as [|[key modified] rest IH]; intros b deleted failed k.
  - reflexivity.
  - cbn [RetentionSweeper.sweep_loop existsb].
    destruct (maxAgeDays * day <? now - modified) eqn:Hold.
    + unfold StorageClient.delete.
      destruct (bool_decide (key ∈ faults b)) eqn:Hfault.
      * rewrite IH. destruct (String.eqb_spec key k) as [->|Hne]; [|now rewrite andb_false_l].
        rewrite Hfault. simpl. now rewrite !andb_false_r.
      * rewrite IH. cbn [objects faults].
        destruct (String.eqb_spec key k) as [->|Hne].
        -- rewrite Hfault, lookup_delete_eq. simpl. now destruct (existsb _ rest).
        -- rewrite lookup_delete_ne by exact Hne. now rewrite andb_false_l.
    + rewrite IH. now rewrite andb_false_r.
Qed.

Lemma list_elem prefix b k t :
  In (k, t) (StorageClient.list prefix b) <->
  exists o, objects b !! k = Some o /\ lastModified o = t /\ String.prefix prefix k = true.
Proof.
  unfold StorageClient.list. rewrite <- list_elem_of_In, list_elem_of_omap. split.
  - intros ([k' o] & Hin & Hsome). apply elem_of_map_to_list in Hin.
    destruct (String.prefix prefix k') eqn:Hp; [|discriminate].
    injection Hsome as -> <-. eauto.
  - intros (o & Hk & <- & Hp). exists (k, o). split.
    + now apply elem_of_map_to_list.
    + now rewrite Hp.
Qed.

(** The listing holds an expired entry for a key exactly when the stored
    object is under the prefix and older than the threshold. *)
Lemma list_expired prefix maxAgeDays now b k o :
  objects b !! k = Some o ->
  existsb (fun '(key, modified) => String.eqb key k && (maxAgeDays * day <? now - modified))
    (StorageClient.list prefix b) =
  String.prefix prefix k && (maxAgeDays * day <? now - lastModified o).
Proof.
  intros Hk. apply eq_true_iff_eq. rewrite existsb_exists, andb_true_iff. split.
  - intros ([key t] & Hin & Hf). apply andb_prop in Hf as [Heq Hold].
    apply String.eqb_eq in Heq as ->.
    apply list_elem in Hin as (o' & Hk' & <- & Hp). now replace o with o' by congruence.
  - intros [Hp Hold]. exists (k, lastModified o). split.
    + apply list_elem. eauto.
    + now rewrite String.eqb_refl.
Qed.

Lemma list_absent prefix maxAgeDays now b k :
  objects b !! k = None ->
  existsb (fun '(key, modified) => String.eqb key k && (maxAgeDays * day <? now - modified))
    (StorageClient.list prefix b) = false.
Proof.
  intros Hk. apply not_true_is_false. rewrite existsb_exists.
  intros ([key t] & Hin & Hf). apply andb_prop in Hf as [Heq _].
  apply String.eqb_eq in Heq as ->.
  apply list_elem in Hin as (o & Hk' & _). congruence.
Qed.

Lemma sweep_objects prefix maxAgeDays now b k :
  0 <= maxAgeDays ->
  objects (RetentionSweeper.sweep prefix maxAgeDays now b).1 !! k =
  match objects b !! k with
  | Some o =>
      if String.prefix prefix k && (maxAgeDays * day <? now - lastModified o)
         && negb (bool_decide (k ∈ faults b))
      then None else Some o
  | None => None
  end.
Proof.
  intros Hpos. unfold RetentionSweeper.sweep.
  destruct (maxAgeDays <? 0) eqn:Hneg; [lia|].
  pose proof (sweep_loop_objects maxAgeDays now (StorageClient.list prefix b) b 0 0 k) as H.
  destruct (RetentionSweeper.sweep_loop _ _ _ _ _ _) as [[b' deleted] failed].
  cbn [fst] in *. rewrite H.
  destruct (objects b !! k) as [o|] eqn:Hk.
  - now rewrite (list_expired _ _ _ _ _ _ Hk).
  - rewrite (list_absent _ _ _ _ _ Hk). reflexivity.
Qed.

Section CacheProperties.
Context {Storage : Type}.
Variable bundle : gmap string string -> list string -> CacheError + string.
Variable extract : string -> gmap string string -> CacheError + (gmap string string * list string).

Lemma Exec_flush (p : @Plugin Storage) w :
  Mode p = FlushMode -> Exec bundle extract p w = Flush (FlushPath p) (FlushAge p) w.
Proof. intros H. unfold Exec. rewrite H. reflexivity. Qed.

Lemma Flush_backend prefix age w :
  backend (Flush prefix age w).1 = (RetentionSweeper.sweep prefix age (now w) (backend w)).1.
Proof.
  unfold Flush. now destruct (RetentionSweeper.sweep _ _ _ _) as [b' [deleted err]].
Qed.

(** C4: a restore that finds neither the primary nor the fallback object,
    with no transport failure, completes without error, exits with code 0,
    restores no file and changes nothing; the miss is reported as a signal,
    not as an error. *)
Theorem restore_miss_is_success (p : @Plugin Storage) (w : World) :
  let primary := StorageClient.get (Path p +:+ Filename p) (backend w) in
  let fallback := StorageClient.get (FallbackPath p +:+ Filename p) (backend w) in
  Mode p = RestoreMode ->
  found primary = false -> failure primary = None ->
  found fallback = false -> failure fallback = None ->
  Exec bundle extract p w =
    (w, ({| restored := []; cache_miss := true; deletedCount := 0 |}, None)) /\
  exit_code (Exec bundle extract p w).2.2 = 0.
Proof.
  intros primary fallback Hmode Hf1 He1 Hf2 He2.
  assert (H : Exec bundle extract p w =
    (w, ({| restored := []; cache_miss := true; deletedCount := 0 |}, None))).
  { unfold Exec. rewrite Hmode.
    change (String.eqb RestoreMode RebuildMode) with false. rewrite String.eqb_refl.
    unfold Restore. fold primary fallback. now rewrite He1, Hf1, He2, Hf2. }
  split; [exact H | now rewrite H].
Qed.

(** C5: a flush with a threshold of maxAgeDays days deletes exactly the
    stored objects under the flush prefix whose age, now minus
    lastModified, is strictly more than the threshold (a delete that the
    storage fails leaves its object); everything else is kept as it was, and
    an object whose age is exactly the threshold is retained. *)
Theorem flush_deletes_strictly_older (p : @Plugin Storage) (w : World) :
  let b := backend w in
  let b' := backend (Exec bundle extract p w).1 in
  let expired k o :=
    String.prefix (FlushPath p) k && (FlushAge p * day <? now w - lastModified o) in
  Mode p = FlushMode -> 0 <= FlushAge p ->
  (forall k o, objects b !! k = Some o ->
     objects b' !! k =
       if expired k o && negb (bool_decide (k ∈ faults b)) then None else Some o) /\
  (forall k, objects b !! k = None -> objects b' !! k = None) /\
  (faults b = ∅ -> forall k,
     objects b' !! k = None <->
     objects b !! k = None \/
     exists o, objects b !! k = Some o /\ String.prefix (FlushPath p) k = true /\
               FlushAge p * day < now w - lastModified o) /\
  (forall k o, objects b !! k = Some o -> now w - lastModified o = FlushAge p * day ->
     objects b' !! k = Some o).
Proof.
  intros b b' expired Hmode Hpos.
  assert (Hb' : forall k, objects b' !! k =
    match objects b !! k with
    | Some o => if expired k o && negb (bool_decide (k ∈ faults b)) then None else Some o
    | None => None
    end).
  { intros k. unfold b'. rewrite (Exec_flush p w Hmode), Flush_backend.
    now apply sweep_objects. }
  split; [|split; [|split]].
  - intros k o Hk. now rewrite Hb', Hk.
  - intros k Hk. now rewrite Hb', Hk.
  - intros Hfaults k. rewrite Hb', Hfaults.
    replace (bool_decide (k ∈ (∅ : gset string))) with false
      by (symmetry; apply bool_decide_eq_false; set_solver).
    destruct (objects b !! k) as [o|] eqn:Hk.
    + unfold expired. rewrite andb_true_r. split.
      * intros H. right. exists o.
        destruct (String.prefix (FlushPath p) k); [|discriminate].
        destruct (FlushAge p * day <? now w - lastModified o) eqn:E; [|discriminate].
        repeat split. lia.
      * intros [H|(o' & Ho' & Hp & Hold)]; [discriminate|].
        injection Ho' as <-. rewrite Hp.
        replace (FlushAge p * day <? now w - lastModified o) with true
          by (symmetry; apply Z.ltb_lt; exact Hold).
        reflexivity.
    + split; auto.
  - intros k o Hk Hage. rewrite Hb', Hk. unfold expired. rewrite Hage, Z.ltb_irrefl.
    now rewrite andb_false_r.
Qed.
End CacheProperties.

Lemma restore_miss_is_success_witness :
  Exec bundle_nothing extract_nothing plugin_restore world_cold =
    (world_cold, ({| restored := []; cache_miss := true; deletedCount := 0 |}, None)) /\
  exit_code (Exec bundle_nothing extract_nothing plugin_restore world_cold).2.2 = 0.
Proof.
  apply (restore_miss_is_success bundle_nothing extract_nothing plugin_restore world_cold);
    vm_compute; reflexivity.
Defined.

Lemma flush_deletes_strictly_older_witness :
  objects (backend (Exec bundle_nothing extract_nothing plugin_flush world_aged).1)
    !! "/acme/widget/master/archive.tar" =
  Some {| payload := "m"; lastModified := 70 * day |}.
Proof.
  assert (Hmode : Mode plugin_flush = FlushMode) by reflexivity.
  assert (Hpos : 0 <= FlushAge plugin_flush) by (vm_compute; discriminate).
  assert (Hk : objects (backend world_aged) !! "/acme/widget/master/archive.tar" =
               Some {| payload := "m"; lastModified := 70 * day |})
    by (vm_compute; reflexivity).
  assert (Hage : now world_aged - lastModified {| payload := "m"; lastModified := 70 * day |} =
                 FlushAge plugin_flush * day) by (vm_compute; reflexivity).
  destruct (flush_deletes_strictly_older bundle_nothing extract_nothing plugin_flush world_aged
              Hmode Hpos) as (_ & _ & _ & H).
  exact (H _ _ Hk Hage).
Defined.

(** The flush of [world_aged] with threshold 30 deletes the archive that is
    31 days old and keeps the others, also the older one outside the prefix. *)
Example flush_world_aged :
  let w' := (Exec bundle_nothing extract_nothing plugin_flush world_aged).1 in
  (Exec bundle_nothing extract_nothing plugin_flush world_aged).2 =
    ({| restored := []; cache_miss := false; deletedCount := 1 |}, None) /\
  objects (backend w') !! "/acme/widget/feature-x/archive.tar" = None /\
  objects (backend w') !! "/acme/widget/master/archive.tar" =
    Some {| payload := "m"; lastModified := 70 * day |} /\
  objects (backend w') !! "/acme/widget/hotfix/archive.tar" =
    Some {| payload := "h"; lastModified := 71 * day |} /\
  objects (backend w') !! "/acme/gadget/master/archive.tar" =
    Some {| payload := "g"; lastModified := 0 |}.
Proof. vm_compute. repeat split. Qed.

(** * More on [main.go] *)

(** ** [isMultipleModes] on rearranged and joined arguments *)

Lemma count_true_app l1 l2 : count_true (l1 ++ l2) = (count_true l1 + count_true l2)%nat.
Proof. unfold count_true. apply count_occ_app. Qed.

Lemma count_true_zero l : count_true l = 0%nat <-> existsb id l = false.
Proof.
  unfold count_true. induction l as [|[|] l IH]; simpl; split; intros H;
    try reflexivity; try discriminate; now apply IH.
Qed.

(** X1: the answer of [isMultipleModes] does not depend on the order of its
    arguments. *)
Theorem isMultipleModes_permutation (l1 l2 : list bool) :
  Permutation l1 l2 -> isMultipleModes l1 = isMultipleModes l2.
Proof.
  intros HP. unfold isMultipleModes. rewrite !isMultipleModes_from_count.
  unfold count_true. now rewrite (proj1 (Permutation_count_occ Bool.bool_dec l1 l2) HP true).
Qed.

Lemma isMultipleModes_permutation_witness :
  isMultipleModes [true; false; true] = isMultipleModes [false; true; true].
Proof.
  apply (isMultipleModes_permutation [true; false; true] [false; true; true]).
  apply perm_swap.
Defined.

(** X2: on two argument lists joined, [isMultipleModes] answers true when it
    does on one of them, or when each of them holds a true. *)
Theorem isMultipleModes_app (l1 l2 : list bool) :
  isMultipleModes (l1 ++ l2) =
  isMultipleModes l1 || isMultipleModes l2 || (existsb id l1 && existsb id l2).
Proof.
  unfold isMultipleModes. rewrite !isMultipleModes_from_count, count_true_app.
  change ((if false then 1 else 0) + ?n)%nat with n.
  cbn [Nat.add].
  destruct (existsb id l1) eqn:E1.
  - assert (count_true l1 <> 0)%nat by (rewrite count_true_zero; congruence).
    destruct (existsb id l2) eqn:E2.
    + assert (count_true l2 <> 0)%nat by (rewrite count_true_zero; congruence).
      rewrite orb_true_r. apply Nat.leb_le. lia.
    + apply count_true_zero in E2. rewrite E2, Nat.add_0_r.
      change (2 <=? 0)%nat with false. now rewrite !orb_false_r.
  - apply count_true_zero in E1. rewrite E1.
    change (2 <=? 0)%nat with false. now rewrite andb_false_l, orb_false_r.
Qed.

(** ** Strings *)

Lemma prefix_app s t : String.prefix s (s +:+ t) = true.
Proof.
  induction s as [|a s IH]; simpl.
  - now destruct t.
  - destruct (ascii_dec a a) as [_|Hne]; [exact IH | congruence].
Qed.

Lemma prefix_empty s : String.prefix "" s = true.
Proof. now destruct s. Qed.

(** ** The mode block and [s3Storage], case by case *)

Lemma run_mode_cases c :
  run_mode c =
  match cli.Bool c "rebuild", cli.Bool c "restore", cli.Bool c "flush" with
  | true, false, false =>
      match cli.StringSlice c "mount" with
      | [] => ([], inl (errorString "No mounts specified"))
      | mount => ([], inr (RebuildMode, mount))
      end
  | false, true, false => ([], inr (RestoreMode, []))
  | false, false, true => ([], inr (FlushMode, []))
  | false, false, false => ([], inl (errorString "No action specified"))
  | _, _, _ => ([], inl (errorString "Must use a single mode: rebuild, restore or flush"))
  end.
Proof.
  unfold run_mode.
  destruct (cli.Bool c "rebuild"), (cli.Bool c "restore"), (cli.Bool c "flush");
    try reflexivity.
  now destruct (cli.StringSlice c "mount").
Qed.

Section MoreMainProperties.
Context {Storage : Type}.
Variable s3_New : s3.Options -> error + Storage.

(** A client comes out of [s3Storage] through one call of the constructor,
    on options made of the server and the two keys. *)
Lemma s3Storage_ok_inv c s :
  result (s3Storage s3_New c) = inr s ->
  exists o, s3Storage s3_New c = ([S3New o], inr s) /\ s3_New o = inr s /\
    s3.Access o = cli.String c "access-key" /\ s3.Secret o = cli.String c "secret-key".
Proof.
  unfold s3Storage.
  destruct (0 <? len (cli.String c "server"));
    [destruct (strings.HasPrefix (cli.String c "server") "https://"); simpl;
     [|destruct (strings.HasPrefix (cli.String c "server") "http://"); simpl] |];
    try discriminate;
    (destruct ((len (cli.String c "access-key") =? 0) || (len (cli.String c "secret-key") =? 0));
     simpl; [discriminate|]);
    (destruct (s3_New _) as [e|s'] eqn:Hnew; simpl; intros H; [discriminate|];
     injection H as ->; eexists; split; [reflexivity | split; [exact Hnew | split; reflexivity]]).
Qed.

(** The plugin of a successful [run], field by field. *)
Lemma run_value c mode mount s flushAge :
  result (run_mode c) = inr (mode, mount) ->
  result (s3Storage s3_New c) = inr s ->
  strconv.Atoi (cli.String c "flush_age") = inr flushAge ->
  result (run s3_New c) =
    inr {| Filename := if len (cli.GlobalString c "filename") =? 0 then "archive.tar"
                       else cli.GlobalString c "filename";
           Path := if len (cli.GlobalString c "path") =? 0
                   then Sprintf3 (cli.String c "repo.owner") (cli.String c "repo.name")
                          (cli.String c "commit.branch")
                   else cli.GlobalString c "path";
           FallbackPath := if len (cli.GlobalString c "fallback_path") =? 0
                           then Sprintf_master (cli.String c "repo.owner")
                                  (cli.String c "repo.name")
                           else cli.GlobalString c "fallback_path";
           FlushPath := if len (cli.GlobalString c "flush_path") =? 0
                        then Sprintf2 (cli.String c "repo.owner") (cli.String c "repo.name")
                        else cli.GlobalString c "flush_path";
           Mode := mode; FlushAge := flushAge; Mount := mount; Storage_ := s |}.
Proof.
  intros Hm Hs Ha.
  destruct (run_ok s3_New c _ _ _ _ Hm Hs Ha) as (path & fb & fl & fn & Hp & Hfb & Hfl & Hfn & Hrun).
  rewrite run_path_result in Hp. rewrite run_fallbackPath_result in Hfb.
  rewrite run_flushPath_result in Hfl. rewrite run_filename_result in Hfn.
  injection Hp as <-. injection Hfb as <-. injection Hfl as <-. injection Hfn as <-.
  exact Hrun.
Qed.

(** *** When [run] reaches the plugin *)

(** X3: [run] hands a plugin to [Exec] exactly when one single mode is
    selected, a rebuild has at least one mount, [s3Storage] returns a client
    and the flush age converts. *)
Theorem run_succeeds_iff (c : cli.Context) :
  (exists p, result (run s3_New c) = inr p) <->
  count_true [cli.Bool c "rebuild"; cli.Bool c "restore"; cli.Bool c "flush"] = 1%nat /\
  (cli.Bool c "rebuild" = true -> cli.StringSlice c "mount" <> []) /\
  (exists s, result (s3Storage s3_New c) = inr s) /\
  (exists n, strconv.Atoi (cli.String c "flush_age") = inr n).
Proof.
  split.
  - intros [p Hrun]. apply run_inv in Hrun as (Hm & _ & _ & _ & _ & Hs & Ha).
    rewrite run_mode_cases in Hm.
    split; [|split; [|eauto]];
      destruct (cli.Bool c "rebuild"), (cli.Bool c "restore"), (cli.Bool c "flush");
      try discriminate; try reflexivity.
    intros _ Hnil. rewrite Hnil in Hm. discriminate.
  - intros (Hone & Hmount & [s Hs] & [n Ha]).
    assert (Hm : exists m, result (run_mode c) = inr m).
    { rewrite run_mode_cases.
      destruct (cli.Bool c "rebuild"), (cli.Bool c "restore"), (cli.Bool c "flush");
        try discriminate; eauto.
      destruct (cli.StringSlice c "mount"); [now destruct Hmount | eauto]. }
    destruct Hm as [[mode mount] Hm].
    destruct (run_ok s3_New c _ _ _ _ Hm Hs Ha) as (? & ? & ? & ? & _ & _ & _ & _ & Hrun).
    eauto.
Qed.

(** X4: the plugin's mode is the one selected flag: rebuild with the mounts
    of the mount option, which are not empty, or restore or flush with no
    mounts at all. *)
Theorem plugin_mode_and_mounts (c : cli.Context) (p : Plugin) :
  result (run s3_New c) = inr p ->
  (cli.Bool c "rebuild" = true /\ cli.Bool c "restore" = false /\ cli.Bool c "flush" = false /\
   Mode p = RebuildMode /\ Mount p = cli.StringSlice c "mount" /\ Mount p <> []) \/
  (cli.Bool c "rebuild" = false /\ cli.Bool c "restore" = true /\ cli.Bool c "flush" = false /\
   Mode p = RestoreMode /\ Mount p = []) \/
  (cli.Bool c "rebuild" = false /\ cli.Bool c "restore" = false /\ cli.Bool c "flush" = true /\
   Mode p = FlushMode /\ Mount p = []).
Proof.
  intros Hrun. apply run_inv in Hrun as (Hm & _).
  rewrite run_mode_cases in Hm.
  destruct (cli.Bool c "rebuild"), (cli.Bool c "restore"), (cli.Bool c "flush");
    try discriminate.
  - left. destruct (cli.StringSlice c "mount") as [|m ms]; [discriminate|].
    simpl in Hm. injection Hm as <- <-. repeat split; congruence.
  - right. left. simpl in Hm. injection Hm as <- <-. repeat split.
  - right. right. simpl in Hm. injection Hm as <- <-. repeat split.
Qed.
End MoreMainProperties.

Lemma append_assoc (s t u : string) : (s +:+ t) +:+ u = s +:+ t +:+ u.
Proof.
  induction s as [|a s IH]; [reflexivity|].
  change (String a ((s +:+ t) +:+ u) = String a (s +:+ t +:+ u)). now rewrite IH.
Qed.

(** The default path and the default fallback path start with the default
    flush path. *)
Lemma Sprintf3_Sprintf2 a b c : Sprintf3 a b c = Sprintf2 a b +:+ c +:+ "/".
Proof. unfold Sprintf3, Sprintf2. now rewrite !append_assoc. Qed.

Lemma Sprintf_master_Sprintf2 a b : Sprintf_master a b = Sprintf2 a b +:+ "master/".
Proof. unfold Sprintf_master, Sprintf2. now rewrite !append_assoc. Qed.

(** A declared flag that is not supplied holds its default. *)
Lemma app_Context_default (supplied : gmap string cli.FlagValue) name f :
  find (fun f => String.eqb (cli.Name f) name) app_Flags = Some f ->
  supplied !! cli.Name f = None ->
  cli.flagSet (app_Context supplied) !! name = Some (cli.Value f).
Proof.
  intros Hfind Hs.
  change (cli.flagSet (app_Context supplied)) with (cli.parse app_Flags supplied).
  rewrite parse_lookup, Hfind. simpl. unfold cli.apply. now rewrite Hs.
Qed.

Section PluginFields.
Context {Storage : Type}.
Variable s3_New : s3.Options -> error + Storage.

(** *** The fields of the plugin *)

(** X5: a path or fallback path that is given is taken as it is, whatever
    owner, repo and branch are. *)
Theorem explicit_paths_verbatim (c : cli.Context) mode mount s flushAge :
  result (run_mode c) = inr (mode, mount) ->
  result (s3Storage s3_New c) = inr s ->
  strconv.Atoi (cli.String c "flush_age") = inr flushAge ->
  exists p, result (run s3_New c) = inr p /\
    (cli.GlobalString c "path" <> "" -> Path p = cli.GlobalString c "path") /\
    (cli.GlobalString c "fallback_path" <> "" ->
       FallbackPath p = cli.GlobalString c "fallback_path").
Proof.
  intros Hm Hs Ha. eexists. split; [exact (run_value s3_New c _ _ _ _ Hm Hs Ha)|].
  cbn [Path FallbackPath]. split; intros Hne; now rewrite (len_nonzero _ Hne).
Qed.

(** X6: the file name is the filename option, and "archive.tar" when that
    is empty; it is never empty. *)
Theorem filename_default (c : cli.Context) mode mount s flushAge :
  result (run_mode c) = inr (mode, mount) ->
  result (s3Storage s3_New c) = inr s ->
  strconv.Atoi (cli.String c "flush_age") = inr flushAge ->
  exists p, result (run s3_New c) = inr p /\
    (cli.GlobalString c "filename" = "" -> Filename p = "archive.tar") /\
    (cli.GlobalString c "filename" <> "" -> Filename p = cli.GlobalString c "filename") /\
    Filename p <> "".
Proof.
  intros Hm Hs Ha. eexists. split; [exact (run_value s3_New c _ _ _ _ Hm Hs Ha)|].
  cbn [Filename]. split; [|split].
  - intros ->. reflexivity.
  - intros Hne. now rewrite (len_nonzero _ Hne).
  - destruct (cli.GlobalString c "filename") eqn:E; [discriminate|].
    rewrite len_nonzero; discriminate.
Qed.

(** X7: when path, fallback path and flush path are all defaulted, the path
    and the fallback path both start with the flush path. *)
Theorem default_flush_path_covers (c : cli.Context) mode mount s flushAge :
  result (run_mode c) = inr (mode, mount) ->
  result (s3Storage s3_New c) = inr s ->
  strconv.Atoi (cli.String c "flush_age") = inr flushAge ->
  cli.GlobalString c "path" = "" ->
  cli.GlobalString c "fallback_path" = "" ->
  cli.GlobalString c "flush_path" = "" ->
  exists p, result (run s3_New c) = inr p /\
    strings.HasPrefix (Path p) (FlushPath p) = true /\
    strings.HasPrefix (FallbackPath p) (FlushPath p) = true.
Proof.
  intros Hm Hs Ha Hp Hfb Hfl. eexists. split; [exact (run_value s3_New c _ _ _ _ Hm Hs Ha)|].
  cbn [Path FallbackPath FlushPath]. rewrite Hp, Hfb, Hfl.
  change (len "" =? 0) with true. cbv iota.
  rewrite Sprintf3_Sprintf2, Sprintf_master_Sprintf2.
  unfold strings.HasPrefix. split; apply prefix_app.
Qed.

(** X8: a successful [run] calls the storage constructor exactly once, as
    its last effect, on the access and secret keys of the context; the
    client it returned is the plugin's storage. *)
Theorem constructor_called_once (c : cli.Context) (p : Plugin) :
  result (run s3_New c) = inr p ->
  exists before o,
    trace (run s3_New c) = (before ++ [S3New o])%list /\
    no_storage before = true /\
    s3_New o = inr (Storage_ p) /\
    s3.Access o = cli.String c "access-key" /\
    s3.Secret o = cli.String c "secret-key".
Proof.
  intros Hrun. pose proof (run_inv s3_New c p Hrun) as (Hm & _ & _ & _ & _ & Hs & Ha).
  destruct (s3Storage_ok_inv s3_New c _ Hs) as (o & Hs3 & Hnew & Hacc & Hsec).
  exists (trace (run_debug c) ++ trace (run_path c) ++ trace (run_fallbackPath c) ++
          trace (run_flushPath c) ++ trace (run_filename c))%list, o.
  split; [|split; [|auto]].
  - unfold run.
    rewrite (trace_bind_ok _ _ _ (run_debug_ok c)).
    rewrite (trace_bind_ok _ _ _ Hm), run_mode_trace, app_nil_l.
    rewrite (trace_bind_ok _ _ _ (run_path_result c)).
    rewrite (trace_bind_ok _ _ _ (run_fallbackPath_result c)).
    rewrite (trace_bind_ok _ _ _ (run_flushPath_result c)).
    rewrite (trace_bind_ok _ _ _ (run_filename_result c)).
    rewrite (trace_bind_ok _ _ _ Hs), Hs3, Ha. cbn [trace fst bind ret].
    rewrite <- !app_assoc. reflexivity.
  - rewrite !no_storage_app, run_debug_no_storage, run_path_no_storage,
      run_fallbackPath_no_storage, run_flushPath_no_storage, run_filename_no_storage.
    reflexivity.
Qed.

(** X15: the first failing step decides the error of [run]: the mode block
    first, then [s3Storage] (server, credentials, constructor), then the
    flush-age conversion; the path and file-name blocks never fail. *)
Theorem run_result (c : cli.Context) :
  result (run s3_New c) =
  match result (run_mode c) with
  | inl e => inl e
  | inr (mode, mount) =>
      match result (s3Storage s3_New c) with
      | inl e => inl e
      | inr s =>
          match strconv.Atoi (cli.String c "flush_age") with
          | inl e => inl e
          | inr flushAge =>
              inr {| Filename := if len (cli.GlobalString c "filename") =? 0
                                 then "archive.tar" else cli.GlobalString c "filename";
                     Path := if len (cli.GlobalString c "path") =? 0
                             then "/" +:+ cli.String c "repo.owner" +:+ "/" +:+
                                  cli.String c "repo.name" +:+ "/" +:+
                                  cli.String c "commit.branch" +:+ "/"
                             else cli.GlobalString c "path";
                     FallbackPath := if len (cli.GlobalString c "fallback_path") =? 0
                                     then "/" +:+ cli.String c "repo.owner" +:+ "/" +:+
                                          cli.String c "repo.name" +:+ "/master/"
                                     else cli.GlobalString c "fallback_path";
                     FlushPath := if len (cli.GlobalString c "flush_path") =? 0
                                  then "/" +:+ cli.String c "repo.owner" +:+ "/" +:+
                                       cli.String c "repo.name" +:+ "/"
                                  else cli.GlobalString c "flush_path";
                     Mode := mode; FlushAge := flushAge; Mount := mount; Storage_ := s |}
          end
      end
  end.
Proof.
  destruct (result (run_mode c)) as [e|[mode mount]] eqn:Hm.
  - now apply run_fail_mode.
  - destruct (result (s3Storage s3_New c)) as [e|s] eqn:Hs.
    + now apply (run_fail_s3 s3_New c (mode, mount)).
    + destruct (strconv.Atoi (cli.String c "flush_age")) as [e|n] eqn:Ha.
      * now apply (run_fail_Atoi s3_New c (mode, mount) s).
      * now apply run_value.
Qed.
End PluginFields.

(** ** Options that [run] does not read *)

Lemma String_insert_ne c c' k v name :
  cli.flagSet c' = <[k := v]> (cli.flagSet c) -> k <> name ->
  cli.String c' name = cli.String c name.
Proof. intros H Hne. unfold cli.String. now rewrite H, lookup_insert_ne. Qed.

Lemma GlobalString_insert_ne c c' k v name :
  cli.flagSet c' = <[k := v]> (cli.flagSet c) -> k <> name ->
  cli.GlobalString c' name = cli.GlobalString c name.
Proof. intros H Hne. unfold cli.GlobalString. now rewrite H, lookup_insert_ne. Qed.

Lemma Bool_insert_ne c c' k v name :
  cli.flagSet c' = <[k := v]> (cli.flagSet c) -> k <> name ->
  cli.Bool c' name = cli.Bool c name.
Proof. intros H Hne. unfold cli.Bool. now rewrite H, lookup_insert_ne. Qed.

Lemma StringSlice_insert_ne c c' k v name :
  cli.flagSet c' = <[k := v]> (cli.flagSet c) -> k <> name ->
  cli.StringSlice c' name = cli.StringSlice c name.
Proof. intros H Hne. unfold cli.StringSlice. now rewrite H, lookup_insert_ne. Qed.

Ltac other_flag H :=
  repeat first
    [ rewrite (String_insert_ne _ _ _ _ _ H) by discriminate
    | rewrite (GlobalString_insert_ne _ _ _ _ _ H) by discriminate
    | rewrite (Bool_insert_ne _ _ _ _ _ H) by discriminate
    | rewrite (StringSlice_insert_ne _ _ _ _ _ H) by discriminate ].

Section UnreadOptions.
Context {Storage : Type}.
Variable s3_New : s3.Options -> error + Storage.

(** X9: the debug option only sets the log level: two contexts that differ
    in it alone give the same result, and the same effects after the
    log-level event. *)
Theorem debug_only_sets_log_level (c c' : cli.Context) (v : cli.FlagValue) :
  cli.flagSet c' = <["debug" := v]> (cli.flagSet c) ->
  result (run s3_New c') = result (run s3_New c) /\
  exists rest,
    trace (run s3_New c') = (trace (run_debug c') ++ rest)%list /\
    trace (run s3_New c) = (trace (run_debug c) ++ rest)%list.
Proof.
  intros H.
  assert (Hmode : run_mode c' = run_mode c) by (unfold run_mode; now other_flag H).
  assert (Hpath : run_path c' = run_path c) by (unfold run_path; now other_flag H).
  assert (Hfb : run_fallbackPath c' = run_fallbackPath c)
    by (unfold run_fallbackPath; now other_flag H).
  assert (Hfl : run_flushPath c' = run_flushPath c) by (unfold run_flushPath; now other_flag H).
  assert (Hfn : run_filename c' = run_filename c) by (unfold run_filename; now other_flag H).
  assert (Hs3 : s3Storage s3_New c' = s3Storage s3_New c)
    by (unfold s3Storage; now other_flag H).
  assert (Hage : cli.String c' "flush_age" = cli.String c "flush_age") by now other_flag H.
  unfold run. split.
  - rewrite !(result_bind_ok _ _ _ (run_debug_ok _)).
    now rewrite Hmode, Hpath, Hfb, Hfl, Hfn, Hs3, Hage.
  - rewrite !(trace_bind_ok _ _ _ (run_debug_ok _)).
    rewrite Hmode, Hpath, Hfb, Hfl, Hfn, Hs3, Hage. eauto.
Qed.

(** *** [s3Storage] *)

(** X10: without an access key or without a secret key, [s3Storage] fails
    before it calls the constructor, with the error "No access credentials
    provided" when the server passed; [run] then fails without a storage
    client. *)
Theorem credentials_required (c : cli.Context) :
  let server := cli.String c "server" in
  cli.String c "access-key" = "" \/ cli.String c "secret-key" = "" ->
  (exists e, s3Storage s3_New c = ([], inl e)) /\
  (server = "" \/ strings.HasPrefix server "http://" = true \/
   strings.HasPrefix server "https://" = true ->
     s3Storage s3_New c = ([], inl (errorString "No access credentials provided"))) /\
  (exists e, result (run s3_New c) = inl e) /\
  no_storage (trace (run s3_New c)) = true.
Proof.
  intros server Hcred.
  assert (Hempty : (len (cli.String c "access-key") =? 0) ||
                   (len (cli.String c "secret-key") =? 0) = true).
  { destruct Hcred as [-> | ->]; [reflexivity | apply orb_true_r]. }
  assert (Hs : exists e, s3Storage s3_New c = ([], inl e)).
  { unfold s3Storage. fold server.
    destruct (0 <? len server);
      [destruct (strings.HasPrefix server "https://"); simpl;
       [|destruct (strings.HasPrefix server "http://"); simpl] |];
      rewrite ?Hempty; eauto. }
  split; [exact Hs|]. split; [|split].
  - intros Hserver. unfold s3Storage. fold server.
    destruct (0 <? len server) eqn:Hlen.
    + destruct (strings.HasPrefix server "https://") eqn:Hhttps; simpl.
      * now rewrite Hempty.
      * destruct Hserver as [Hnil | [Hhttp | ?]]; [| |discriminate].
        -- rewrite Hnil in Hlen. discriminate.
        -- rewrite Hhttp. simpl. now rewrite Hempty.
    + simpl. now rewrite Hempty.
  - destruct Hs as [e Hs]. destruct (result (run_mode c)) as [em|m] eqn:Hm.
    + exists em. now apply run_fail_mode.
    + exists e. apply (run_fail_s3 s3_New c m _ Hm). now rewrite Hs.
  - destruct Hs as [e Hs]. rewrite run_no_storage, Hs. now destruct (result (run_mode c)).
Qed.

(** X11: the endpoint is the server without its scheme, and SSL is on
    exactly for "https://": with both keys present the constructor is
    called on these options, and its answer is what [s3Storage] returns. *)
Theorem endpoint_of_server (c : cli.Context) (host : string) :
  let access := cli.String c "access-key" in
  let secret := cli.String c "secret-key" in
  access <> "" -> secret <> "" ->
  (cli.String c "server" = "https://" +:+ host ->
     s3Storage s3_New c =
       let o := {| s3.Endpoint := host; s3.Access := access; s3.Secret := secret;
                   s3.UseSSL := true |} in
       ([S3New o], s3_New o)) /\
  (cli.String c "server" = "http://" +:+ host ->
     s3Storage s3_New c =
       let o := {| s3.Endpoint := host; s3.Access := access; s3.Secret := secret;
                   s3.UseSSL := false |} in
       ([S3New o], s3_New o)).
Proof.
  intros access secret Ha Hs.
  assert (Hcred : (len access =? 0) || (len secret =? 0) = false)
    by now rewrite (len_nonzero _ Ha), (len_nonzero _ Hs).
  split; intros Hserver; unfold s3Storage; fold access secret; rewrite Hserver.
  - replace (strings.HasPrefix ("https://" +:+ host) "https://") with true
      by (symmetry; apply (prefix_app "https://" host)).
    change (0 <? len ("https://" +:+ host)) with true. cbv iota. simpl negb. cbv iota.
    change (slice_from 8 ("https://" +:+ host)) with host.
    unfold bind, ret, emit. rewrite Hcred. reflexivity.
  - replace (strings.HasPrefix ("http://" +:+ host) "http://") with true
      by (symmetry; apply (prefix_app "http://" host)).
    change (strings.HasPrefix ("http://" +:+ host) "https://") with false.
    change (0 <? len ("http://" +:+ host)) with true. cbv iota. simpl negb. cbv iota.
    change (slice_from 7 ("http://" +:+ host)) with host.
    unfold bind, ret, emit. rewrite Hcred. reflexivity.
Qed.
End UnreadOptions.

(** ** The defaults of the declared flags *)

(** X12: the branch flag is declared with the default "master": when no
    branch is supplied and path and fallback path are both defaulted, the
    primary path and the fallback path are the same. *)
Theorem unsupplied_branch_is_master (supplied : gmap string cli.FlagValue) :
  let c := app_Context supplied in
  supplied !! "commit.branch" = None ->
  cli.String c "commit.branch" = "master" /\
  (cli.GlobalString c "path" = "" -> cli.GlobalString c "fallback_path" = "" ->
     result (run_path c) = result (run_fallbackPath c)).
Proof.
  intros c Hb.
  assert (H : cli.String c "commit.branch" = "master").
  { unfold cli.String, c.
    now rewrite (app_Context_default supplied "commit.branch"
                   (cli.StringFlag "commit.branch" "git commit branch" "DRONE_COMMIT_BRANCH"
                      "master")). }
  split; [exact H|]. intros Hp Hfb.
  rewrite run_path_result, run_fallbackPath_result, Hp, Hfb, H. reflexivity.
Qed.

(** X13: the flush-age flag is declared with the default "30": when none is
    supplied the conversion gives 30, and that is the plugin's flush age. *)
Theorem unsupplied_flush_age_is_30 {Storage : Type} (s3_New : s3.Options -> error + Storage)
    (supplied : gmap string cli.FlagValue) :
  let c := app_Context supplied in
  supplied !! "flush_age" = None ->
  strconv.Atoi (cli.String c "flush_age") = inr 30 /\
  forall p, result (run s3_New c) = inr p -> FlushAge p = 30.
Proof.
  intros c Hage.
  assert (H : cli.String c "flush_age" = "30").
  { unfold cli.String, c.
    now rewrite (app_Context_default supplied "flush_age"
                   (cli.StringFlag "flush_age" "flush cache files older then # days"
                      "PLUGIN_FLUSH_AGE" "30")). }
  assert (Ha : strconv.Atoi (cli.String c "flush_age") = inr 30) by now rewrite H.
  split; [exact Ha|].
  intros p Hrun. apply run_inv in Hrun as (_ & _ & _ & _ & _ & _ & Hp).
  rewrite Ha in Hp. now injection Hp.
Qed.

(** X14: no two declared flags share a name, so every declared flag holds
    the value supplied for it when that value is of the flag's kind. *)
Theorem declared_flags_are_read (supplied : gmap string cli.FlagValue) (f : cli.Flag)
    (v : cli.FlagValue) :
  In f app_Flags ->
  supplied !! cli.Name f = Some v ->
  cli.same_kind v (cli.Value f) = true ->
  cli.flagSet (app_Context supplied) !! cli.Name f = Some v.
Proof.
  intros Hin Hs Hk.
  change (cli.flagSet (app_Context supplied)) with (cli.parse app_Flags supplied).
  rewrite parse_lookup.
  assert (Hfind : find (fun g => String.eqb (cli.Name g) (cli.Name f)) app_Flags = Some f).
  { unfold app_Flags in *. simpl in Hin.
    repeat (destruct Hin as [<-|Hin]; [reflexivity|]). destruct Hin. }
  rewrite Hfind. simpl. unfold cli.apply. now rewrite Hs, Hk.
Qed.

(** ** More examples *)

Lemma run_succeeds_iff_witness :
  exists p, result (run client_of (app_Context options_rebuild)) = inr p.
Proof.
  apply (proj2 (run_succeeds_iff client_of (app_Context options_rebuild))).
  split; [vm_compute; reflexivity|]. split; [|split].
  - intros _. vm_compute. discriminate.
  - exists client_minio. vm_compute. reflexivity.
  - exists 30. vm_compute. reflexivity.
Defined.

(** [run] on [options_rebuild] builds [plugin_rebuild]. *)
Example run_options_rebuild :
  result (run client_of (app_Context options_rebuild)) = inr plugin_rebuild.
Proof. vm_compute. reflexivity. Qed.

Lemma plugin_mode_and_mounts_witness :
  (cli.Bool (app_Context options_rebuild) "rebuild" = true /\
   cli.Bool (app_Context options_rebuild) "restore" = false /\
   cli.Bool (app_Context options_rebuild) "flush" = false /\
   Mode plugin_rebuild = RebuildMode /\
   Mount plugin_rebuild = cli.StringSlice (app_Context options_rebuild) "mount" /\
   Mount plugin_rebuild <> []) \/
  (cli.Bool (app_Context options_rebuild) "rebuild" = false /\
   cli.Bool (app_Context options_rebuild) "restore" = true /\
   cli.Bool (app_Context options_rebuild) "flush" = false /\
   Mode plugin_rebuild = RestoreMode /\ Mount plugin_rebuild = []) \/
  (cli.Bool (app_Context options_rebuild) "rebuild" = false /\
   cli.Bool (app_Context options_rebuild) "restore" = false /\
   cli.Bool (app_Context options_rebuild) "flush" = true /\
   Mode plugin_rebuild = FlushMode /\ Mount plugin_rebuild = []).
Proof.
  assert (Hrun : result (run client_of (app_Context options_rebuild)) = inr plugin_rebuild)
    by (vm_compute; reflexivity).
  exact (plugin_mode_and_mounts client_of (app_Context options_rebuild) plugin_rebuild Hrun).
Defined.

Lemma explicit_paths_verbatim_witness :
  exists p, result (run client_of (app_Context options_rebuild)) = inr p /\
    (cli.GlobalString (app_Context options_rebuild) "path" <> "" ->
       Path p = cli.GlobalString (app_Context options_rebuild) "path") /\
    (cli.GlobalString (app_Context options_rebuild) "fallback_path" <> "" ->
       FallbackPath p = cli.GlobalString (app_Context options_rebuild) "fallback_path").
Proof.
  assert (Hm : result (run_mode (app_Context options_rebuild)) =
               inr (RebuildMode, ["node_modules"; "vendor"])) by (vm_compute; reflexivity).
  assert (Hs : result (s3Storage client_of (app_Context options_rebuild)) = inr client_minio)
    by (vm_compute; reflexivity).
  assert (Ha : strconv.Atoi (cli.String (app_Context options_rebuild) "flush_age") = inr 30)
    by (vm_compute; reflexivity).
  exact (explicit_paths_verbatim client_of (app_Context options_rebuild) _ _ _ _ Hm Hs Ha).
Defined.

Lemma filename_default_witness :
  exists p, result (run client_of (app_Context options_acme)) = inr p /\
    (cli.GlobalString (app_Context options_acme) "filename" = "" ->
       Filename p = "archive.tar") /\
    (cli.GlobalString (app_Context options_acme) "filename" <> "" ->
       Filename p = cli.GlobalString (app_Context options_acme) "filename") /\
    Filename p <> "".
Proof.
  assert (Hm : result (run_mode (app_Context options_acme)) = inr (RestoreMode, []))
    by (vm_compute; reflexivity).
  assert (Hs : result (s3Storage client_of (app_Context options_acme)) = inr client_acme)
    by (vm_compute; reflexivity).
  assert (Ha : strconv.Atoi (cli.String (app_Context options_acme) "flush_age") = inr 30)
    by (vm_compute; reflexivity).
  exact (filename_default client_of (app_Context options_acme) _ _ _ _ Hm Hs Ha).
Defined.

Lemma default_flush_path_covers_witness :
  exists p, result (run client_of (app_Context options_acme)) = inr p /\
    strings.HasPrefix (Path p) (FlushPath p) = true /\
    strings.HasPrefix (FallbackPath p) (FlushPath p) = true.
Proof.
  assert (Hm : result (run_mode (app_Context options_acme)) = inr (RestoreMode, []))
    by (vm_compute; reflexivity).
  assert (Hs : result (s3Storage client_of (app_Context options_acme)) = inr client_acme)
    by (vm_compute; reflexivity).
  assert (Ha : strconv.Atoi (cli.String (app_Context options_acme) "flush_age") = inr 30)
    by (vm_compute; reflexivity).
  assert (Hp : cli.GlobalString (app_Context options_acme) "path" = "")
    by (vm_compute; reflexivity).
  assert (Hfb : cli.GlobalString (app_Context options_acme) "fallback_path" = "")
    by (vm_compute; reflexivity).
  assert (Hfl : cli.GlobalString (app_Context options_acme) "flush_path" = "")
    by (vm_compute; reflexivity).
  exact (default_flush_path_covers client_of (app_Context options_acme) _ _ _ _
           Hm Hs Ha Hp Hfb Hfl).
Defined.

Lemma constructor_called_once_witness :
  exists before o,
    trace (run client_of (app_Context options_acme)) = (before ++ [S3New o])%list /\
    no_storage before = true /\
    client_of o = inr (Storage_ plugin_restore) /\
    s3.Access o = cli.String (app_Context options_acme) "access-key" /\
    s3.Secret o = cli.String (app_Context options_acme) "secret-key".
Proof.
  assert (Hrun : result (run client_of (app_Context options_acme)) = inr plugin_restore)
    by (vm_compute; reflexivity).
  exact (constructor_called_once client_of (app_Context options_acme) plugin_restore Hrun).
Defined.

Lemma debug_only_sets_log_level_witness :
  result (run client_of context_debug) = result (run client_of (app_Context options_acme)).
Proof.
  assert (H : cli.flagSet context_debug =
              <["debug" := cli.VBool true]> (cli.flagSet (app_Context options_acme)))
    by reflexivity.
  exact (proj1 (debug_only_sets_log_level client_of (app_Context options_acme) context_debug
                  (cli.VBool true) H)).
Defined.

Lemma credentials_required_witness :
  s3Storage client_of (app_Context options_no_secret) =
    ([], inl (errorString "No access credentials provided")).
Proof.
  assert (Hcred : cli.String (app_Context options_no_secret) "access-key" = "" \/
                  cli.String (app_Context options_no_secret) "secret-key" = "")
    by (right; vm_compute; reflexivity).
  assert (Hserver : cli.String (app_Context options_no_secret) "server" = "" \/
                    strings.HasPrefix (cli.String (app_Context options_no_secret) "server")
                      "http://" = true \/
                    strings.HasPrefix (cli.String (app_Context options_no_secret) "server")
                      "https://" = true)
    by (left; vm_compute; reflexivity).
  destruct (credentials_required client_of (app_Context options_no_secret) Hcred)
    as (_ & H & _).
  exact (H Hserver).
Defined.

Lemma endpoint_of_server_witness :
  s3Storage client_of (app_Context options_rebuild) =
    let o := {| s3.Endpoint := "minio.local:9000";
                s3.Access := cli.String (app_Context options_rebuild) "access-key";
                s3.Secret := cli.String (app_Context options_rebuild) "secret-key";
                s3.UseSSL := true |} in
    ([S3New o], client_of o).
Proof.
  assert (Ha : cli.String (app_Context options_rebuild) "access-key" <> "")
    by (vm_compute; discriminate).
  assert (Hs : cli.String (app_Context options_rebuild) "secret-key" <> "")
    by (vm_compute; discriminate).
  assert (Hserver : cli.String (app_Context options_rebuild) "server" =
                    "https://" +:+ "minio.local:9000") by (vm_compute; reflexivity).
  destruct (endpoint_of_server client_of (app_Context options_rebuild) "minio.local:9000"
              Ha Hs) as [H _].
  exact (H Hserver).
Defined.

Lemma unsupplied_branch_is_master_witness :
  cli.String (app_Context options_no_owner) "commit.branch" = "feature-x" /\
  cli.String (app_Context (delete "commit.branch" options_acme)) "commit.branch" = "master".
Proof.
  split; [vm_compute; reflexivity|].
  assert (H : delete "commit.branch" options_acme !! "commit.branch" = None)
    by (vm_compute; reflexivity).
  exact (proj1 (unsupplied_branch_is_master (delete "commit.branch" options_acme) H)).
Defined.

Lemma unsupplied_flush_age_is_30_witness :
  strconv.Atoi (cli.String (app_Context options_acme) "flush_age") = inr 30.
Proof.
  assert (H : options_acme !! "flush_age" = None) by (vm_compute; reflexivity).
  exact (proj1 (unsupplied_flush_age_is_30 client_of options_acme H)).
Defined.

Lemma declared_flags_are_read_witness :
  cli.flagSet (app_Context options_rebuild) !! "mount" =
    Some (cli.VStringSlice ["node_modules"; "vendor"]).
Proof.
  assert (Hin : In (cli.StringSliceFlag "mount" "cache directories" "PLUGIN_MOUNT") app_Flags)
    by (vm_compute; tauto).
  assert (Hs : options_rebuild !! "mount" = Some (cli.VStringSlice ["node_modules"; "vendor"]))
    by (vm_compute; reflexivity).
  exact (declared_flags_are_read options_rebuild
           (cli.StringSliceFlag "mount" "cache directories" "PLUGIN_MOUNT")
           (cli.VStringSlice ["node_modules"; "vendor"]) Hin Hs eq_refl).
Defined.

(** When the constructor refuses the client, its error is returned, also
    with a flush age that would not convert. *)
Example run_constructor_refused :
  run client_refused (app_Context options_bad_age) =
    ([LogInfo "No path specified. Creating default";
      LogInfo "No fallback_path specified. Creating default";
      LogInfo "No flush_path specified. Creating default";
      LogInfo "No filename specified. Creating default";
      S3New client_acme],
     inl (Foreign "connection refused")).
Proof. vm_compute. reflexivity. Qed.
